(** * x-deleter: the rate-limit aware deletion scheduler of [src/index.ts]

    A shallow embedding of the script: the wait-time computation
    [calculateWaitTime], the preflight [checkApiStatus], the two retrying
    operations [getUserId] and [getAllTweetsAtOnce], and the sequential
    deletion loop of [deleteTweets].

    The Twitter client, the timer and the clock are outside the script; they
    are an interface ([Platform]) over an arbitrary world state.  A
    computation of the script maps the state it starts from (the variables of
    the script and the world) to how its promise ends, the state then, and
    the calls, sleeps and console lines it performed, in order.  The two
    recursive operations take the depth they may recurse to; a promise that
    needs more is [Pending].

    The definitions come first: numbers, the script, the vocabulary of the
    statements and a scripted platform to run the script on; the lemmas, the
    claims and further properties of the code follow. *)

From Stdlib Require Import ZArith QArith Qround List String Bool Lia Lqa.
From Stdlib Require Qcanon.
Import ListNotations.
Local Open Scope Z_scope.

(** ** JavaScript numbers

    A [number] is NaN, an infinity, or a finite value.  Finite doubles are
    idealised as rationals kept in lowest terms (no rounding, no overflow,
    one zero): the script only subtracts, scales and compares time stamps. *)

Module Number.

Inductive jsnum : Type :=
| NaN
| Inf (negative : bool)
| Fin (q : Q).

Definition fin (q : Q) : jsnum := Fin (Qred q).
Definition num (z : Z) : jsnum := Fin (inject_Z z).

Definition sgn (q : Q) : comparison := Qcompare q 0.

(** [x + y] *)
Definition add (x y : jsnum) : jsnum :=
match x, y with
| NaN, _ | _, NaN => NaN
| Inf a, Inf b => if Bool.eqb a b then Inf a else NaN
| Inf a, Fin _ => Inf a
| Fin _, Inf b => Inf b
| Fin p, Fin q => fin (p + q)
end.

(** [x - y] *)
Definition sub (x y : jsnum) : jsnum :=
match x, y with
| NaN, _ | _, NaN => NaN
| Inf a, Inf b => if Bool.eqb a b then NaN else Inf a
| Inf a, Fin _ => Inf a
| Fin _, Inf b => Inf (negb b)
| Fin p, Fin q => fin (p - q)
end.

(** [x * y] *)
Definition mul (x y : jsnum) : jsnum :=
match x, y with
| NaN, _ | _, NaN => NaN
| Inf a, Inf b => Inf (xorb a b)
| Inf a, Fin q | Fin q, Inf a =>
    match sgn q with
    | Eq => NaN
    | Gt => Inf a
    | Lt => Inf (negb a)
    end
| Fin p, Fin q => fin (p * q)
end.

(** [x / y] *)
Definition div (x y : jsnum) : jsnum :=
match x, y with
| NaN, _ | _, NaN => NaN
| Inf _, Inf _ => NaN
| Inf a, Fin q => match sgn q with Lt => Inf (negb a) | _ => Inf a end
| Fin _, Inf _ => Fin 0
| Fin p, Fin q =>
    match sgn q with
    | Eq => match sgn p with Eq => NaN | Gt => Inf false | Lt => Inf true end
    | _ => fin (p / q)
    end
end.

(** [x <= y]: false as soon as one side is NaN. *)
Definition le (x y : jsnum) : bool :=
match x, y with
| NaN, _ | _, NaN => false
| Inf true, _ => true
| Inf false, Inf false => true
| Inf false, _ => false
| Fin _, Inf b => negb b
| Fin p, Fin q => Qle_bool p q
end.

(** [x < y] *)
Definition lt (x y : jsnum) : bool :=
match x, y with
| NaN, _ | _, NaN => false
| _, _ => negb (le y x)
end.

(** [x > y] *)
Definition gt (x y : jsnum) : bool := lt y x.

(** [Math.floor(x)] *)
Definition Math_floor (x : jsnum) : jsnum :=
match x with
| Fin q => num (Qfloor q)
| _ => x
end.

(** [Math.round(x)]: the nearest whole number, halves upwards. *)
Definition Math_round (x : jsnum) : jsnum :=
match x with
| Fin q => num (Qfloor (q + (1 # 2)))
| _ => x
end.

(** [Math.min(x, y)]: NaN as soon as one argument is NaN. *)
Definition Math_min (x y : jsnum) : jsnum :=
match x, y with
| NaN, _ | _, NaN => NaN
| _, _ => if le x y then x else y
end.

(** Truthiness of a number: [0] and [NaN] are falsy. *)
Definition truthy (x : jsnum) : bool :=
match x with
| NaN => false
| Inf _ => true
| Fin q => negb (Qeq_bool q 0)
end.

End Number.

Import Number.
Coercion num : Z >-> jsnum.

(** ** Constants of the script (lines 23-26) *)

Definition DELETE_INTERVAL : jsnum := 5000.
Definition MIN_API_LIMIT_WAIT : jsnum := 900000.
Definition MAX_API_LIMIT_WAIT : jsnum := 3600000.
Definition MAX_RETRIES : jsnum := 3.

(** ** [calculateWaitTime] (lines 28-40) *)

(** The argument type [string | number | undefined | null]. *)
Inductive ResetTime : Type :=
| Undefined
| Null
| Str (s : string)
| Num (n : jsnum).

(** [!resetTime] is taken when the value is not truthy. *)
Definition truthy (r : ResetTime) : bool :=
  match r with
  | Undefined | Null => false
  | Str s => negb (String.eqb s EmptyString)
  | Num n => Number.truthy n
  end.

(** [new Date(s).getTime()]: the parser of the runtime gives a whole number
    of milliseconds, or nothing for an invalid date (NaN). *)
Definition getTime (Date_parse : string -> option Z) (s : string) : jsnum :=
  match Date_parse s with
  | Some ms => num ms
  | None => NaN
  end.

Section CalculateWaitTime.

(** The date parser of the runtime and the reading of [Date.now()]. *)
Variable Date_parse : string -> option Z.
Variable Date_now : Z.

(** Line 31-33. *)
Definition resetTimestamp (resetTime : ResetTime) : jsnum :=
  match resetTime with
  | Str s => div (getTime Date_parse s) 1000
  | Num n => n
  | _ => div Date_now 1000
  end.

(** Line 35. *)
Definition now : jsnum := Math_floor (div Date_now 1000).

(** Line 36. *)
Definition waitSeconds (resetTime : ResetTime) : jsnum :=
  sub (resetTimestamp resetTime) now.

Definition calculateWaitTime (resetTime : ResetTime) : jsnum :=
  if negb (truthy resetTime) then MIN_API_LIMIT_WAIT
  else
    let waitSeconds := waitSeconds resetTime in
    if le waitSeconds 0 then MIN_API_LIMIT_WAIT
    else Math_min (add (mul waitSeconds 1000) 60000) MAX_API_LIMIT_WAIT.

End CalculateWaitTime.

(** The reset marker is absent when the caller had none to pass. *)
Definition absent (r : ResetTime) : Prop := r = Undefined \/ r = Null.

(** ** The client library and the runtime *)

(** [TweetV2], as far as the script reads it. *)
Record TweetV2 : Type := { id : string; created_at : option string }.

(** The rate-limit metadata of a response or of an error. *)
Record RateLimit : Type := { limit : jsnum; remaining : jsnum; reset : jsnum }.

(** A value thrown by a call of the client: whether it is an
    [ApiResponseError], its [rateLimitError] flag, its [code], its
    [rateLimit] and its [message], each as the script tests it. *)
Record Error : Type := {
  instanceofApiResponseError : bool;
  rateLimitError : bool;
  code : option Z;
  rateLimit : option RateLimit;
  message : string
}.

(** What a call resolves to: its payload and the metadata it may carry. *)
Record Response (A : Type) : Type := {
  data : A;
  response_rateLimit : option RateLimit
}.
Arguments data {A} _.
Arguments response_rateLimit {A} _.

(** A settled promise of the client. *)
Inductive Reply (A : Type) : Type :=
| resolve (a : A)
| reject (error : Error).
Arguments resolve {A} a.
Arguments reject {A} error.

(** The options of [userTimeline]. *)
Record TimelineOptions : Type := {
  max_results : Z;
  tweet_fields : list string
}.

(** The collaborators of the script over a world [W]: the date parser and
    the clock of the runtime, the passing of a timer, and the four calls of
    [client.v2].  [v2_userByUsername] resolves to the id under [data], when
    there is one; [v2_me] to [data.id]; [v2_userTimeline] to [tweets]. *)
Class Platform (W : Type) : Type := {
  Date_parse : string -> option Z;
  Date_now : W -> Z;
  timer : jsnum -> W -> W;
  v2_userByUsername : string -> W -> Reply (Response (option string)) * W;
  v2_userTimeline :
    string -> TimelineOptions -> W -> Reply (Response (list TweetV2)) * W;
  v2_me : W -> Reply (Response string) * W;
  v2_deleteTweet : string -> W -> Reply (Response unit) * W
}.

(** ** What the script does: calls, sleeps and console lines *)

(** The text of [formatRateLimit]: no information, or the three fields,
    each unknown when falsy; the reset date is [reset * 1000]. *)
Inductive RateLimitText : Type :=
| NoRateLimitInformation
| RateLimitInformation (total left resetDate : option jsnum).

(** One piece of a console line. *)
Inductive Piece : Type :=
| Text (s : string)
| Count (n : nat)
| Value (x : jsnum)
| Limits (t : RateLimitText)
| Thrown (e : Error).

Inductive event : Type :=
| userByUsername (username : string)
| userTimeline (userId : string) (options : TimelineOptions)
| me
| deleteTweet (tweetId : string)
| setTimeout (ms : jsnum)
| console_log (line : list Piece)
| console_error (line : list Piece).

(** The ids of the delete calls of a trace, in order. *)
Fixpoint deleteTweet_calls (t : list event) : list string :=
  match t with
  | [] => []
  | deleteTweet i :: t' => i :: deleteTweet_calls t'
  | _ :: t' => deleteTweet_calls t'
  end.

(** The [me] calls of a trace. *)
Fixpoint me_calls (t : list event) : nat :=
  match t with
  | [] => O
  | me :: t' => S (me_calls t')
  | _ :: t' => me_calls t'
  end.

(** The [userTimeline] calls of a trace. *)
Fixpoint userTimeline_calls (t : list event) : nat :=
  match t with
  | [] => O
  | userTimeline _ _ :: t' => S (userTimeline_calls t')
  | _ :: t' => userTimeline_calls t'
  end.

(** The calls of the client in a trace, in order. *)
Fixpoint client_calls (t : list event) : list event :=
  match t with
  | [] => []
  | setTimeout _ :: t' | console_log _ :: t' | console_error _ :: t' =>
      client_calls t'
  | e :: t' => e :: client_calls t'
  end.

(** The sleeps of a trace, in order. *)
Fixpoint sleeps (t : list event) : list jsnum :=
  match t with
  | [] => []
  | setTimeout ms :: t' => ms :: sleeps t'
  | _ :: t' => sleeps t'
  end.

(** ** Asynchronous computations

    The variables of the script ([USER_ID] of line 8, the two counters of
    lines 151-152) and the world.  A computation maps a state to how its
    promise ends, the state then, and the events it performed; [Pending] is
    a promise that did not settle within the recursion depth allowed. *)

Record State (W : Type) : Type := {
  USER_ID : option string;
  deletedCount : nat;
  failedCount : nat;
  world : W
}.
Arguments USER_ID {W} _.
Arguments deletedCount {W} _.
Arguments failedCount {W} _.
Arguments world {W} _.

Inductive Outcome (A : Type) : Type :=
| Fulfilled (a : A)
| Rejected (error : Error)
| Pending.
Arguments Fulfilled {A} a.
Arguments Rejected {A} error.
Arguments Pending {A}.

Definition Async (W A : Type) : Type :=
  State W -> Outcome A * State W * list event.

Section Monad.

Context {W : Type}.

Definition ret {A} (a : A) : Async W A := fun st => (Fulfilled a, st, []).

Definition throw {A} (error : Error) : Async W A :=
  fun st => (Rejected error, st, []).

Definition pending {A} : Async W A := fun st => (Pending, st, []).

Definition bind {A B} (m : Async W A) (k : A -> Async W B) : Async W B :=
  fun st =>
    match m st with
    | (Fulfilled a, st1, t1) =>
        match k a st1 with
        | (o, st2, t2) => (o, st2, t1 ++ t2)
        end
    | (Rejected error, st1, t1) => (Rejected error, st1, t1)
    | (Pending, st1, t1) => (Pending, st1, t1)
    end.

(** [try { m } catch (error) { handler }]: a pending promise is not an
    exception. *)
Definition try_catch {A} (m : Async W A) (handler : Error -> Async W A)
  : Async W A :=
  fun st =>
    match m st with
    | (Rejected error, st1, t1) =>
        match handler error st1 with
        | (o, st2, t2) => (o, st2, t1 ++ t2)
        end
    | r => r
    end.

Definition emit (e : event) : Async W unit :=
  fun st => (Fulfilled tt, st, [e]).

End Monad.

Declare Scope async_scope.
Delimit Scope async_scope with async.
Notation "x <- m ;; k" := (bind m (fun x => k))
  (at level 61, m at next level, right associativity) : async_scope.
Notation "m ;; k" := (bind m (fun _ => k))
  (at level 61, right associativity) : async_scope.
Local Open Scope async_scope.

(** ** The script *)

Section Script.

Context {W : Type} `{Platform W}.

(** [process.env.X_USERNAME], not empty once past line 10. *)
Variable USERNAME : string.

Definition set_world (w : W) (st : State W) : State W :=
  {| USER_ID := USER_ID st; deletedCount := deletedCount st;
     failedCount := failedCount st; world := w |}.

Definition set_counts (deleted failed : nat) (st : State W) : State W :=
  {| USER_ID := USER_ID st; deletedCount := deleted;
     failedCount := failed; world := world st |}.

(** A call of the client: the event, then the reply of the world. *)
Definition call {A} (e : event) (method : W -> Reply A * W) : Async W A :=
  fun st =>
    match method (world st) with
    | (resolve a, w) => (Fulfilled a, set_world w st, [e])
    | (reject error, w) => (Rejected error, set_world w st, [e])
    end.

Definition client_v2_userByUsername (username : string) :=
  call (userByUsername username) (v2_userByUsername username).

Definition client_v2_userTimeline (userId : string) (o : TimelineOptions) :=
  call (userTimeline userId o) (v2_userTimeline userId o).

Definition client_v2_me := call me v2_me.

Definition client_v2_deleteTweet (tweetId : string) :=
  call (deleteTweet tweetId) (v2_deleteTweet tweetId).

(** [sleep] (lines 42-44). *)
Definition sleep (ms : jsnum) : Async W unit :=
  fun st => (Fulfilled tt, set_world (timer ms (world st)) st, [setTimeout ms]).

(** [calculateWaitTime], with the clock read where it is called. *)
Definition waitTimeFor (resetTime : ResetTime) : Async W jsnum :=
  fun st =>
    (Fulfilled (calculateWaitTime Date_parse (Date_now (world st)) resetTime),
     st, []).

(** [x || 'Unknown'] *)
Definition orUnknown (x : jsnum) : option jsnum :=
  if Number.truthy x then Some x else None.

(** [formatRateLimit] (lines 46-58), applied to the [rateLimit] of its
    argument. *)
Definition formatRateLimit (rateLimit : option RateLimit) : RateLimitText :=
  match rateLimit with
  | None => NoRateLimitInformation
  | Some r =>
      let resetDate :=
        if Number.truthy (reset r) then Some (mul (reset r) 1000) else None in
      RateLimitInformation (orUnknown (limit r)) (orUnknown (remaining r))
        resetDate
  end.

(** [error.message || error] *)
Definition messageOf (error : Error) : Piece :=
  if String.eqb (message error) EmptyString then Thrown error
  else Text (message error).

(** [error.code === 429] *)
Definition code429 (error : Error) : bool :=
  match code error with
  | Some c => c =? 429
  | None => false
  end.

(** [checkApiStatus] (lines 60-84). *)
Definition checkApiStatus : Async W bool :=
  try_catch
    (emit (console_log [Text "\nChecking API status..."]) ;;
     userResponse <- client_v2_userByUsername USERNAME ;;
     emit (console_log [Text "\n[User Information API Rate Limit]"]) ;;
     emit (console_log
             [Limits (formatRateLimit (response_rateLimit userResponse))]) ;;
     match data userResponse with
     | Some userId =>
         timelineResponse <-
           client_v2_userTimeline userId
             {| max_results := 5; tweet_fields := [] |} ;;
         emit (console_log [Text "\n[Timeline API Rate Limit]"]) ;;
         emit (console_log
                 [Limits
                    (formatRateLimit (response_rateLimit timelineResponse))])
     | None => ret tt
     end ;;
     ret true)
    (fun error =>
       emit (console_error
               [Text "\nError occurred while checking API status:";
                messageOf error]) ;;
       (if code429 error
        then emit (console_log [Limits (formatRateLimit (rateLimit error))])
        else ret tt) ;;
       ret false).

(** [isRateLimitError] (lines 86-88). *)
Definition isRateLimitError (error : Error) : bool :=
  instanceofApiResponseError error && rateLimitError error.

(** [error.rateLimit?.reset] *)
Definition resetOf (error : Error) : ResetTime :=
  match rateLimit error with
  | Some r => Num (reset r)
  | None => Undefined
  end.

(** [if (USER_ID)]: a string that is not empty. *)
Definition cached (st : State W) : option string :=
  match USER_ID st with
  | Some userId => if String.eqb userId EmptyString then None else Some userId
  | None => None
  end.

(** The body both catch blocks share, up to the call that follows it
    (lines 98-102 and 119-123). *)
Definition waitForReset (error : Error) : Async W unit :=
  let resetTime := resetOf error in
  emit (console_log
          [Text "Rate limit reached. Rate limit information:";
           Limits (formatRateLimit (rateLimit error))]) ;;
  waitTime <- waitTimeFor resetTime ;;
  emit (console_log
          [Text "Waiting for ";
           Value (Math_floor (div (div waitTime 1000) 60));
           Text " minutes..."]) ;;
  sleep waitTime.

(** [getUserId] (lines 90-107); [fuel] bounds the depth of the recursion. *)
Fixpoint getUserId (fuel : nat) : Async W string :=
  match fuel with
  | O => pending
  | S fuel' =>
      fun st =>
        match cached st with
        | Some userId => ret userId st
        | None =>
            try_catch
              (response <- client_v2_me ;;
               ret (data response))
              (fun error =>
                 if isRateLimitError error
                 then waitForReset error ;; getUserId fuel'
                 else throw error)
              st
        end
  end.

(** [getAllTweetsAtOnce] (lines 109-128). *)
Fixpoint getAllTweetsAtOnce (fuel : nat) : Async W (list TweetV2) :=
  match fuel with
  | O => pending
  | S fuel' =>
      try_catch
        (userId <- getUserId fuel' ;;
         response <-
           client_v2_userTimeline userId
             {| max_results := 100; tweet_fields := ["created_at"%string] |} ;;
         ret (data response))
        (fun error =>
           if isRateLimitError error
           then waitForReset error ;; getAllTweetsAtOnce fuel'
           else throw error)
  end.

(** [tweet.created_at], as [calculateWaitTime] receives it. *)
Definition createdAt (tweet : TweetV2) : ResetTime :=
  match created_at tweet with
  | Some s => Str s
  | None => Undefined
  end.

(** [deletedCount++] and [failedCount++]. *)
Definition increment_deleted : Async W nat :=
  fun st =>
    (Fulfilled (S (deletedCount st)),
     set_counts (S (deletedCount st)) (failedCount st) st, []).

Definition increment_failed : Async W unit :=
  fun st =>
    (Fulfilled tt, set_counts (deletedCount st) (S (failedCount st)) st, []).

(** One turn of the loop for [tweet] (lines 157-176); [total] is
    [tweetsToDelete.length]. *)
Definition deleteOne (total : nat) (tweet : TweetV2) : Async W unit :=
  try_catch
    (deleteResponse <- client_v2_deleteTweet (id tweet) ;;
     deleted <- increment_deleted ;;
     let progress :=
       Math_round
         (mul (div (Z.of_nat deleted) (Z.of_nat total)) 100) in
     emit (console_log
             [Text "Deletion complete: "; Count deleted; Text "/";
              Count total; Text " ("; Value progress; Text "%)"]) ;;
     emit (console_log
             [Text "Delete API rate limit:";
              Limits (formatRateLimit (response_rateLimit deleteResponse))]) ;;
     sleep DELETE_INTERVAL)
    (fun error =>
       increment_failed ;;
       emit (console_error
               [Text "Failed to delete tweet "; Text (id tweet); Text ":";
                messageOf error]) ;;
       if code429 error
       then
         emit (console_log
                 [Text "Rate limit reached. Rate limit information:";
                  Limits (formatRateLimit (rateLimit error))]) ;;
         emit (console_log [Text "Waiting for 15 minutes..."]) ;;
         waitTime <- waitTimeFor (createdAt tweet) ;;
         sleep waitTime
       else sleep (mul DELETE_INTERVAL 2)).

(** [for (const tweet of tweetsToDelete)] (line 156). *)
Fixpoint forOf (total : nat) (tweetsToDelete : list TweetV2)
  : Async W unit :=
  match tweetsToDelete with
  | [] => ret tt
  | tweet :: rest => deleteOne total tweet ;; forOf total rest
  end.

(** [tweets.slice(1)] *)
Definition slice1 (tweets : list TweetV2) : list TweetV2 := skipn 1 tweets.

(** [let deletedCount = 0; let failedCount = 0;] (lines 151-152). *)
Definition let_counts : Async W unit :=
  fun st => (Fulfilled tt, set_counts 0 0 st, []).

(** The two counters, as the summary reads them. *)
Definition counters : Async W (nat * nat) :=
  fun st => (Fulfilled (deletedCount st, failedCount st), st, []).

(** Lines 143-185: what [deleteTweets] does with the tweets retrieved. *)
Definition deleteAllButFirst (tweets : list TweetV2) : Async W unit :=
  if (List.length tweets <=? 1)%nat
  then emit (console_log [Text "No tweets found for deletion."])
  else
    emit (console_log
            [Text "Found "; Count (List.length tweets);
             Text " tweets. Will delete all except the most recent one."]) ;;
    let tweetsToDelete := slice1 tweets in
    let_counts ;;
    emit (console_log [Text "Starting deletion process..."]) ;;
    forOf (List.length tweetsToDelete) tweetsToDelete ;;
    emit (console_log [Text "\nDeletion process completed"]) ;;
    c <- counters ;;
    emit (console_log [Text "Successful: "; Count (fst c); Text " tweets"]) ;;
    emit (console_log [Text "Failed: "; Count (snd c); Text " tweets"]) ;;
    if (0 <? snd c)%nat
    then
      emit (console_log
              [Text "Some tweets failed to delete. Please try again later."])
    else ret tt.

(** [deleteTweets] (lines 130-189). *)
Definition deleteTweets (fuel : nat) : Async W unit :=
  try_catch
    (emit (console_log [Text "Checking API status..."]) ;;
     apiStatus <- checkApiStatus ;;
     if negb apiStatus
     then
       emit
         (console_log
            [Text
               "Cannot proceed due to API rate limit. Please try again later."])
     else
       emit (console_log [Text "\nRetrieving tweets..."]) ;;
       tweets <- getAllTweetsAtOnce fuel ;;
       deleteAllButFirst tweets)
    (fun error =>
       emit (console_error
               [Text "An unexpected error occurred:"; Thrown error])).

End Script.

(** ** The vocabulary of the statements *)

(** A run that continues another: the events of the first come first. *)
Definition prepend {W A} (t1 : list event)
  (run : Outcome A * State W * list event) : Outcome A * State W * list event :=
  match run with
  | (o, st, t2) => (o, st, t1 ++ t2)
  end.

Section Vocabulary.

Context {W : Type} `{Platform W}.

(** [m] keeps [R]: whatever state it starts from, [R] relates that state,
    the state it ends in and the events it performed. *)
Definition keeps (R : State W -> State W -> list event -> Prop) {A}
  (m : Async W A) : Prop :=
  forall st o st' t, m st = (o, st', t) -> R st st' t.

(** Nothing deleted, and the variables of the script as they were. *)
Definition quiet (st st' : State W) (t : list event) : Prop :=
  USER_ID st' = USER_ID st /\
  deletedCount st' = deletedCount st /\
  failedCount st' = failedCount st /\
  deleteTweet_calls t = [].

(** The state after a turn: the counters as given, the world as given. *)
Definition turned (deleted failed : nat) (w : W) (st : State W) : State W :=
  {| USER_ID := USER_ID st; deletedCount := deleted;
     failedCount := failed; world := w |}.

(** The two lines of a deletion that went through. *)
Definition deletionLines (total deleted : nat) (r : Response unit)
  : list event :=
  [console_log
     [Text "Deletion complete: "; Count deleted; Text "/"; Count total;
      Text " (";
      Value (Math_round (mul (div (Z.of_nat deleted) (Z.of_nat total)) 100));
      Text "%)"];
   console_log
     [Text "Delete API rate limit:";
      Limits (formatRateLimit (response_rateLimit r))]].

(** The line of a deletion that failed. *)
Definition failureLine (tweet : TweetV2) (error : Error) : event :=
  console_error
    [Text "Failed to delete tweet "; Text (id tweet); Text ":";
     messageOf error].

(** The two lines of a deletion refused with 429. *)
Definition rateLimitLines (error : Error) : list event :=
  [console_log
     [Text "Rate limit reached. Rate limit information:";
      Limits (formatRateLimit (rateLimit error))];
   console_log [Text "Waiting for 15 minutes..."]].

(** How a reply of the client settles the promise built on it. *)
Definition settled {A B} (f : A -> B) (reply : Reply A) : Outcome B :=
  match reply with
  | resolve a => Fulfilled (f a)
  | reject error => Rejected error
  end.

(** A reply that is a rate-limit error. *)
Definition limited {A} (reply : Reply A) : bool :=
  match reply with
  | resolve _ => false
  | reject error => isRateLimitError error
  end.

(** The wait computed from [error] when the clock is that of [w]. *)
Definition waitOf (error : Error) (w : W) : jsnum :=
  calculateWaitTime Date_parse (Date_now w) (resetOf error).

(** What the catch block does before it calls again. *)
Definition waitEvents (error : Error) (w : W) : list event :=
  [console_log
     [Text "Rate limit reached. Rate limit information:";
      Limits (formatRateLimit (rateLimit error))];
   console_log
     [Text "Waiting for ";
      Value (Math_floor (div (div (waitOf error w) 1000) 60));
      Text " minutes..."];
   setTimeout (waitOf error w)].

(** The options of the retrieval (lines 112-115). *)
Definition fetchOptions : TimelineOptions :=
  {| max_results := 100; tweet_fields := ["created_at"%string] |}.

(** [waits]: from [w], the "who am I" call is refused for its rate limit
    once per element of [waits], each the wait the script computes and
    sleeps before it calls again; the world is then [w']. *)
Inductive me_limited : list jsnum -> W -> W -> Prop :=
| me_limited_nil w : me_limited [] w w
| me_limited_cons error w w1 w' waits :
    v2_me w = (reject error, w1) ->
    isRateLimitError error = true ->
    me_limited waits (timer (waitOf error w1) w1) w' ->
    me_limited (waitOf error w1 :: waits) w w'.

(** [waits]: from [st], the retrieval obtains the user id and has its
    timeline call refused for its rate limit, once per element of [waits],
    each the wait the script computes and sleeps before it starts again;
    the state is then [st']. *)
Inductive timeline_limited : list jsnum -> State W -> State W -> Prop :=
| timeline_limited_nil st : timeline_limited [] st st
| timeline_limited_cons fuel st userId st1 t1 error w st' waits :
    getUserId fuel st = (Fulfilled userId, st1, t1) ->
    v2_userTimeline userId fetchOptions (world st1) = (reject error, w) ->
    isRateLimitError error = true ->
    timeline_limited waits (set_world (timer (waitOf error w) w) st1) st' ->
    timeline_limited (waitOf error w :: waits) st st'.

(** No timeline asked for. *)
Definition silent (st st' : State W) (t : list event) : Prop :=
  userTimeline_calls t = O.

(** The options of the preflight (line 71). *)
Definition preflightOptions : TimelineOptions :=
  {| max_results := 5; tweet_fields := [] |}.

(** What the catch block of [checkApiStatus] prints (lines 78-81). *)
Definition reported (error : Error) : list event :=
  console_error
    [Text "\nError occurred while checking API status:"; messageOf error]
  :: (if code429 error
      then [console_log [Limits (formatRateLimit (rateLimit error))]]
      else []).

(** Line 136. *)
Definition cannotProceed : event :=
  console_log
    [Text "Cannot proceed due to API rate limit. Please try again later."].

(** Lines 180 and 181. *)
Definition successful (n : nat) : event :=
  console_log [Text "Successful: "; Count n; Text " tweets"].

Definition failed (n : nat) : event :=
  console_log [Text "Failed: "; Count n; Text " tweets"].

End Vocabulary.

(** ** A scripted platform

    A world whose four calls answer from lists of replies prepared in
    advance, whose clock starts at a given instant and moves when a timer
    runs, and whose date parser knows two instants. *)

Module Mock.

Record World : Type := {
  clock : Z;
  userByUsername_replies : list (Reply (Response (option string)));
  userTimeline_replies : list (Reply (Response (list TweetV2)));
  me_replies : list (Reply (Response string));
  deleteTweet_replies : list (Reply (Response unit))
}.

(** A failure below HTTP: no code, no metadata. *)
Definition networkError : Error :=
  {| instanceofApiResponseError := false; rateLimitError := false;
     code := None; rateLimit := None; message := "socket hang up" |}.

(** HTTP 429 with the reset instant [r], in epoch seconds. *)
Definition tooManyRequests (r : Z) : Error :=
  {| instanceofApiResponseError := true; rateLimitError := true;
     code := Some 429;
     rateLimit := Some {| limit := 50; remaining := 0; reset := r |};
     message := "Request failed with code 429" |}.

(** HTTP 403. *)
Definition forbidden : Error :=
  {| instanceofApiResponseError := true; rateLimitError := false;
     code := Some 403; rateLimit := None;
     message := "Request failed with code 403" |}.

Definition next {A} (replies : list (Reply A)) : Reply A * list (Reply A) :=
  match replies with
  | r :: rest => (r, rest)
  | [] => (reject networkError, [])
  end.

Definition elapse (ms : jsnum) : Z :=
  match ms with
  | Fin q => Z.max 0 (Qfloor q)
  | _ => 0
  end.

Definition parse (s : string) : option Z :=
  if String.eqb s "2026-01-01T00:10:00.000Z" then Some 1767226200000
  else if String.eqb s "2020-01-01T00:00:00.000Z" then Some 1577836800000
  else None.

#[global] Instance platform : Platform World := {|
  Date_parse := parse;
  Date_now := clock;
  timer ms w :=
    {| clock := clock w + elapse ms;
       userByUsername_replies := userByUsername_replies w;
       userTimeline_replies := userTimeline_replies w;
       me_replies := me_replies w;
       deleteTweet_replies := deleteTweet_replies w |};
  v2_userByUsername _ w :=
    let (r, rest) := next (userByUsername_replies w) in
    (r, {| clock := clock w;
           userByUsername_replies := rest;
           userTimeline_replies := userTimeline_replies w;
           me_replies := me_replies w;
           deleteTweet_replies := deleteTweet_replies w |});
  v2_userTimeline _ _ w :=
    let (r, rest) := next (userTimeline_replies w) in
    (r, {| clock := clock w;
           userByUsername_replies := userByUsername_replies w;
           userTimeline_replies := rest;
           me_replies := me_replies w;
           deleteTweet_replies := deleteTweet_replies w |});
  v2_me w :=
    let (r, rest) := next (me_replies w) in
    (r, {| clock := clock w;
           userByUsername_replies := userByUsername_replies w;
           userTimeline_replies := userTimeline_replies w;
           me_replies := rest;
           deleteTweet_replies := deleteTweet_replies w |});
  v2_deleteTweet _ w :=
    let (r, rest) := next (deleteTweet_replies w) in
    (r, {| clock := clock w;
           userByUsername_replies := userByUsername_replies w;
           userTimeline_replies := userTimeline_replies w;
           me_replies := me_replies w;
           deleteTweet_replies := rest |})
|}.

Definition ok {A} (a : A) : Reply (Response A) :=
  resolve {| data := a; response_rateLimit := None |}.

Definition tweet (i : string) : TweetV2 :=
  {| id := i; created_at := Some "2020-01-01T00:00:00.000Z"%string |}.

(** The script starts with no user id and both counters at zero. *)
Definition start (w : World) : State World :=
  {| USER_ID := None; deletedCount := O; failedCount := O; world := w |}.

(** 2026-01-01T00:00:00Z. *)
Definition newYear : Z := 1767225600000.

(** Three tweets, every call answered. *)
Definition threeTweets : World :=
  {| clock := newYear;
     userByUsername_replies := [ok (Some "42"%string)];
     userTimeline_replies :=
       [ok [tweet "9"]; ok [tweet "3"; tweet "2"; tweet "1"]];
     me_replies := [ok "42"%string];
     deleteTweet_replies := [ok tt; ok tt] |}.

(** Every call answered, but the timeline of the retrieval, refused once
    for its rate limit, which resets ten minutes later. *)
Definition timelineLimitedOnce : World :=
  {| clock := newYear;
     userByUsername_replies := [ok (Some "42"%string)];
     userTimeline_replies :=
       [ok [tweet "9"];
        reject (tooManyRequests 1767226200);
        ok [tweet "3"; tweet "2"; tweet "1"]];
     me_replies := [ok "42"%string; ok "42"%string];
     deleteTweet_replies := [ok tt; ok tt] |}.

(** "Who am I" refused [n] times for its rate limit, then answered. *)
Definition meLimited (n : nat) : World :=
  {| clock := newYear;
     userByUsername_replies := [];
     userTimeline_replies := [];
     me_replies := repeat (reject (tooManyRequests 1767226200)) n
                     ++ [ok "42"%string];
     deleteTweet_replies := [] |}.

(** The deletions answer as [replies], nothing else is asked. *)
Definition deleting (replies : list (Reply (Response unit))) : World :=
  {| clock := newYear;
     userByUsername_replies := [];
     userTimeline_replies := [];
     me_replies := [];
     deleteTweet_replies := replies |}.

(** The preflight answers as given, nothing else is asked. *)
Definition preflight (users : list (Reply (Response (option string))))
  (timelines : list (Reply (Response (list TweetV2)))) : World :=
  {| clock := newYear;
     userByUsername_replies := users;
     userTimeline_replies := timelines;
     me_replies := [];
     deleteTweet_replies := [] |}.

(** The retrieval alone: "who am I" answers as [mes], the timeline as
    [timelines]. *)
Definition retrieval (mes : list (Reply (Response string)))
  (timelines : list (Reply (Response (list TweetV2)))) : World :=
  {| clock := newYear;
     userByUsername_replies := [];
     userTimeline_replies := timelines;
     me_replies := mes;
     deleteTweet_replies := [] |}.

(** States of the loop: two deletions that go through; one refused with
    429; one refused with 403, then one that goes through. *)
Definition twoDeletions : State World := start (deleting [ok tt; ok tt]).

Definition refused429 : State World :=
  start (deleting [reject (tooManyRequests 1767226200)]).

Definition refused403 : State World :=
  start (deleting [reject forbidden; ok tt]).

End Mock.

(** ** The start of the script (lines 7-13 and 191-195) *)

(** How the process ends: [process.exit(code)], or the promise of
    [deleteTweets] with its [.catch(console.error)] once settled. *)
Inductive Ending : Type :=
| Exit (code : Z)
| Settled (o : Outcome unit).

(** [process.env.X_USERNAME || ''] *)
Definition USERNAME_of (X_USERNAME : option string) : string :=
  match X_USERNAME with
  | Some s => s
  | None => EmptyString
  end.

(** Lines 192-194. *)
Definition banner : list event :=
  [console_log [Text "Starting deletion process. Press Ctrl+C to interrupt."];
   console_log [Text "The most recent tweet will be preserved."];
   console_log [Text "The process may take time due to API rate limits."]].

(** The script from line 7 on, for the value of [X_USERNAME] in the
    environment. *)
Definition script {W : Type} `{Platform W} (X_USERNAME : option string)
  (fuel : nat) (st : State W) : Ending * State W * list event :=
  let USERNAME := USERNAME_of X_USERNAME in
  if String.eqb USERNAME EmptyString
  then
    (Exit 1, st,
     [console_error
        [Text "Error: X_USERNAME is not set in environment variables"]])
  else
    match deleteTweets USERNAME fuel st with
    | (Rejected error, st', t) =>
        (Settled (Fulfilled tt), st',
         banner ++ t ++ [console_error [Thrown error]])
    | (o, st', t) => (Settled o, st', banner ++ t)
    end.

(** ** More vocabulary *)

(** A wait of more than a minute and of at most an hour. *)
Definition bounded (ms : jsnum) : Prop :=
  lt 60000 ms = true /\ le ms 3600000 = true.

(** Line 187. *)
Definition unexpected (error : Error) : event :=
  console_error [Text "An unexpected error occurred:"; Thrown error].

(** A platform that answers each call the same way every time: it refuses
    "who am I" for its rate limit, accepts a deletion, and fails below HTTP
    on the rest.  The world is the clock. *)
Module Steady.

Definition refusal : Error :=
  {| instanceofApiResponseError := true; rateLimitError := true;
     code := Some 429; rateLimit := None;
     message := "Request failed with code 429" |}.

#[global] Instance platform : Platform Z := {|
  Date_parse := Mock.parse;
  Date_now := fun clock => clock;
  timer ms clock := clock + Mock.elapse ms;
  v2_userByUsername _ clock := (reject Mock.networkError, clock);
  v2_userTimeline _ _ clock := (reject Mock.networkError, clock);
  v2_me clock := (reject refusal, clock);
  v2_deleteTweet _ clock := (Mock.ok tt, clock)
|}.

Definition start : State Z :=
  {| USER_ID := None; deletedCount := O; failedCount := O;
     world := Mock.newYear |}.

End Steady.

(** ** Facts on numbers *)

Lemma gt_0_not_le (x : jsnum) : gt x 0 = true -> le x 0 = false.
Proof.
  unfold gt, lt. destruct x as [|b|q]; simpl; try discriminate.
  - destruct b; simpl; intros H; congruence.
  - intros H. apply negb_true_iff in H. exact H.
Qed.

Lemma now_seconds (clock : Z) : now clock = num (clock / 1000).
Proof.
  unfold now.
  change (div clock 1000) with (fin (inject_Z clock / inject_Z 1000)).
  unfold Math_floor, fin. f_equal.
  rewrite (Qfloor_comp _ _ (Qred_correct _)).
  unfold Qfloor, Qdiv, Qmult, Qinv, inject_Z. simpl Qnum. simpl Qden.
  rewrite Z.mul_1_r. reflexivity.
Qed.

Lemma falsy_number_waits_nothing (clock : Z) (n : jsnum) :
  0 <= clock -> Number.truthy n = false -> gt (sub n (now clock)) 0 = false.
Proof.
  intros Hc Hn. rewrite now_seconds.
  destruct n as [|b|q]; [reflexivity | discriminate Hn |].
  apply negb_false_iff in Hn. apply Qeq_bool_iff in Hn.
  unfold gt, lt, sub, le, fin, num. apply negb_false_iff.
  apply Qle_bool_iff. rewrite Qred_correct, Hn.
  assert (H : (0 <= clock / 1000)%Z) by (apply Z.div_pos; lia).
  unfold Qminus. rewrite Qplus_0_l.
  unfold Qle, Qopp, inject_Z. simpl. lia.
Qed.

(** ** Traces *)

Lemma deleteTweet_calls_app (t1 t2 : list event) :
  deleteTweet_calls (t1 ++ t2) = deleteTweet_calls t1 ++ deleteTweet_calls t2.
Proof.
  induction t1 as [|e t1 IH]; [reflexivity |].
  destruct e; simpl; rewrite IH; reflexivity.
Qed.

Lemma me_calls_app (t1 t2 : list event) :
  me_calls (t1 ++ t2) = (me_calls t1 + me_calls t2)%nat.
Proof.
  induction t1 as [|e t1 IH]; [reflexivity |].
  destruct e; simpl; rewrite IH; reflexivity.
Qed.

Lemma userTimeline_calls_app (t1 t2 : list event) :
  userTimeline_calls (t1 ++ t2) =
  (userTimeline_calls t1 + userTimeline_calls t2)%nat.
Proof.
  induction t1 as [|e t1 IH]; [reflexivity |].
  destruct e; simpl; rewrite IH; reflexivity.
Qed.

Lemma sleeps_app (t1 t2 : list event) :
  sleeps (t1 ++ t2) = sleeps t1 ++ sleeps t2.
Proof.
  induction t1 as [|e t1 IH]; [reflexivity |].
  destruct e; simpl; rewrite IH; reflexivity.
Qed.

(** ** Properties every step keeps

    A relation between the state before, the state after and the events
    performed, that holds of doing nothing and composes along a sequence,
    holds of a whole computation once it holds of its calls and sleeps. *)

Section Keeps.

Context {W : Type} `{Platform W}.

Variable R : State W -> State W -> list event -> Prop.
Hypothesis R_nothing : forall st, R st st [].
Hypothesis R_sequence :
  forall st st1 st2 t1 t2, R st st1 t1 -> R st1 st2 t2 -> R st st2 (t1 ++ t2).

Lemma keeps_ret {A} (a : A) : keeps R (ret a).
Proof. intros st o st' t E. inversion E; subst. apply R_nothing. Qed.

Lemma keeps_throw {A} (e : Error) : keeps R (@throw W A e).
Proof. intros st o st' t E. inversion E; subst. apply R_nothing. Qed.

Lemma keeps_pending {A} : keeps R (@pending W A).
Proof. intros st o st' t E. inversion E; subst. apply R_nothing. Qed.

Lemma keeps_bind {A B} (m : Async W A) (k : A -> Async W B) :
  keeps R m -> (forall a, keeps R (k a)) -> keeps R (bind m k).
Proof.
  intros Hm Hk st o st' t E. unfold bind in E.
  destruct (m st) as [[o1 st1] t1] eqn:E1. specialize (Hm _ _ _ _ E1).
  destruct o1 as [a|e|].
  - destruct (k a st1) as [[o2 st2] t2] eqn:E2.
    inversion E; subst. eapply R_sequence; [exact Hm |].
    eapply Hk. exact E2.
  - inversion E; subst. exact Hm.
  - inversion E; subst. exact Hm.
Qed.

Lemma keeps_try_catch {A} (m : Async W A) (h : Error -> Async W A) :
  keeps R m -> (forall e, keeps R (h e)) -> keeps R (try_catch m h).
Proof.
  intros Hm Hh st o st' t E. unfold try_catch in E.
  destruct (m st) as [[o1 st1] t1] eqn:E1. specialize (Hm _ _ _ _ E1).
  destruct o1 as [a|e|].
  - inversion E; subst. exact Hm.
  - destruct (h e st1) as [[o2 st2] t2] eqn:E2.
    inversion E; subst. eapply R_sequence; [exact Hm |].
    eapply Hh. exact E2.
  - inversion E; subst. exact Hm.
Qed.

Lemma keeps_waitTimeFor (r : ResetTime) : keeps R (waitTimeFor r).
Proof. intros st o st' t E. inversion E; subst. apply R_nothing. Qed.

(** What is asked of the steps that act. *)
Hypothesis R_console_log : forall st l, R st st [console_log l].
Hypothesis R_console_error : forall st l, R st st [console_error l].
Hypothesis R_sleep :
  forall st ms, R st (set_world (timer ms (world st)) st) [setTimeout ms].
Hypothesis R_userByUsername :
  forall st u w, R st (set_world w st) [userByUsername u].
Hypothesis R_userTimeline :
  forall st u o w, R st (set_world w st) [userTimeline u o].
Hypothesis R_me : forall st w, R st (set_world w st) [me].

Lemma keeps_log (l : list Piece) : keeps R (@emit W (console_log l)).
Proof. intros st o st' t E. inversion E; subst. apply R_console_log. Qed.

Lemma keeps_error (l : list Piece) : keeps R (@emit W (console_error l)).
Proof. intros st o st' t E. inversion E; subst. apply R_console_error. Qed.

Lemma keeps_sleep (ms : jsnum) : keeps R (sleep ms).
Proof. intros st o st' t E. inversion E; subst. apply R_sleep. Qed.

Lemma keeps_call {A} (e : event) (method : W -> Reply A * W) :
  (forall st w, R st (set_world w st) [e]) -> keeps R (call e method).
Proof.
  intros He st o st' t E. unfold call in E.
  destruct (method (world st)) as [[a|err] w]; inversion E; subst; apply He.
Qed.

Lemma keeps_waitForReset (error : Error) : keeps R (waitForReset error).
Proof.
  unfold waitForReset.
  repeat first
    [ apply keeps_bind; [| intros ?] | apply keeps_log
    | apply keeps_waitTimeFor | apply keeps_sleep ].
Qed.

Lemma keeps_getUserId (fuel : nat) : keeps R (getUserId fuel).
Proof.
  induction fuel as [|fuel IH]; [apply keeps_pending |].
  intros st o st' t E. simpl in E.
  destruct (cached st) as [userId|].
  - eapply keeps_ret. exact E.
  - revert E. apply keeps_try_catch.
    + apply keeps_bind; [apply keeps_call, R_me | intros; apply keeps_ret].
    + intros e. destruct (isRateLimitError e).
      * apply keeps_bind; [apply keeps_waitForReset | intros; exact IH].
      * apply keeps_throw.
Qed.

Lemma keeps_getAllTweetsAtOnce (fuel : nat) : keeps R (getAllTweetsAtOnce fuel).
Proof.
  induction fuel as [|fuel IH]; [apply keeps_pending |].
  simpl. apply keeps_try_catch.
  - apply keeps_bind; [apply keeps_getUserId | intros userId].
    apply keeps_bind; [| intros; apply keeps_ret].
    apply keeps_call. intros st w. apply R_userTimeline.
  - intros e. destruct (isRateLimitError e).
    + apply keeps_bind; [apply keeps_waitForReset | intros; exact IH].
    + apply keeps_throw.
Qed.

Lemma keeps_checkApiStatus (USERNAME : string) :
  keeps R (checkApiStatus USERNAME).
Proof.
  unfold checkApiStatus. apply keeps_try_catch.
  - apply keeps_bind; [apply keeps_log | intros _].
    apply keeps_bind;
      [apply keeps_call; intros st w; apply R_userByUsername | intros r].
    apply keeps_bind; [apply keeps_log | intros _].
    apply keeps_bind; [apply keeps_log | intros _].
    apply keeps_bind; [| intros; apply keeps_ret].
    destruct (data r) as [userId|]; [| apply keeps_ret].
    apply keeps_bind;
      [apply keeps_call; intros st w; apply R_userTimeline | intros r'].
    apply keeps_bind; [apply keeps_log | intros _]. apply keeps_log.
  - intros e.
    apply keeps_bind; [apply keeps_error | intros _].
    apply keeps_bind; [| intros; apply keeps_ret].
    destruct (code429 e); [apply keeps_log | apply keeps_ret].
Qed.

End Keeps.

(** ** The preflight and the two retrievals leave the script's variables
    alone and delete nothing *)

Section Quiet.

Context {W : Type} `{Platform W}.

Lemma quiet_nothing (st : State W) : quiet st st [].
Proof. repeat split. Qed.

Lemma quiet_sequence (st st1 st2 : State W) (t1 t2 : list event) :
  quiet st st1 t1 -> quiet st1 st2 t2 -> quiet st st2 (t1 ++ t2).
Proof.
  intros (U1 & D1 & F1 & C1) (U2 & D2 & F2 & C2). unfold quiet.
  rewrite deleteTweet_calls_app, C1, C2. repeat split; congruence.
Qed.

Lemma getUserId_quiet (fuel : nat) : keeps quiet (getUserId fuel).
Proof.
  apply keeps_getUserId;
    first [exact quiet_nothing | exact quiet_sequence
          | intros; split; [| split; [| split]]; reflexivity].
Qed.

Lemma getAllTweetsAtOnce_quiet (fuel : nat) :
  keeps quiet (getAllTweetsAtOnce fuel).
Proof.
  apply keeps_getAllTweetsAtOnce;
    first [exact quiet_nothing | exact quiet_sequence
          | intros; split; [| split; [| split]]; reflexivity].
Qed.

Lemma checkApiStatus_quiet (USERNAME : string) :
  keeps quiet (checkApiStatus USERNAME).
Proof.
  apply keeps_checkApiStatus;
    first [exact quiet_nothing | exact quiet_sequence
          | intros; split; [| split; [| split]]; reflexivity].
Qed.

End Quiet.

(** ** The deletion loop, turn by turn *)

Section Loop.

Context {W : Type} `{Platform W}.

Lemma deleteOne_resolved total tweet (st : State W) r w :
  v2_deleteTweet (id tweet) (world st) = (resolve r, w) ->
  deleteOne total tweet st =
  (Fulfilled tt,
   turned (S (deletedCount st)) (failedCount st) (timer (num 5000) w) st,
   deleteTweet (id tweet) :: deletionLines total (S (deletedCount st)) r
     ++ [setTimeout (num 5000)]).
Proof.
  intros E. unfold deleteOne, try_catch, bind, client_v2_deleteTweet, call.
  rewrite E. reflexivity.
Qed.

Lemma code429_iff (error : Error) :
  code429 error = true <-> code error = Some 429.
Proof.
  unfold code429. destruct (code error) as [c|].
  - rewrite Z.eqb_eq. split; congruence.
  - split; discriminate.
Qed.

Lemma deleteOne_429 total tweet (st : State W) error w :
  v2_deleteTweet (id tweet) (world st) = (reject error, w) ->
  code error = Some 429 ->
  let waitTime := calculateWaitTime Date_parse (Date_now w) (createdAt tweet) in
  deleteOne total tweet st =
  (Fulfilled tt,
   turned (deletedCount st) (S (failedCount st)) (timer waitTime w) st,
   deleteTweet (id tweet) :: failureLine tweet error :: rateLimitLines error
     ++ [setTimeout waitTime]).
Proof.
  intros E C. apply code429_iff in C.
  unfold deleteOne, try_catch, bind, client_v2_deleteTweet, call.
  rewrite E. cbn. rewrite C. reflexivity.
Qed.

Lemma deleteOne_failed total tweet (st : State W) error w :
  v2_deleteTweet (id tweet) (world st) = (reject error, w) ->
  code error <> Some 429 ->
  deleteOne total tweet st =
  (Fulfilled tt,
   turned (deletedCount st) (S (failedCount st)) (timer (num 10000) w) st,
   [deleteTweet (id tweet); failureLine tweet error; setTimeout (num 10000)]).
Proof.
  intros E C. assert (C' : code429 error = false).
  { destruct (code429 error) eqn:X; [| reflexivity].
    apply code429_iff in X. contradiction. }
  unfold deleteOne, try_catch, bind, client_v2_deleteTweet, call.
  rewrite E. cbn. rewrite C'. reflexivity.
Qed.

Lemma forOf_cons total tweet rest (st st1 : State W) t1 :
  deleteOne total tweet st = (Fulfilled tt, st1, t1) ->
  forOf total (tweet :: rest) st = prepend t1 (forOf total rest st1).
Proof.
  intros E. simpl. unfold bind. rewrite E.
  destruct (forOf total rest st1) as [[o st2] t2]. reflexivity.
Qed.

(** A turn always completes, calls delete once, on its own tweet, and
    moves exactly one counter by one. *)
Lemma deleteOne_turn total tweet (st : State W) :
  exists st1 t1,
    deleteOne total tweet st = (Fulfilled tt, st1, t1) /\
    deleteTweet_calls t1 = [id tweet] /\
    USER_ID st1 = USER_ID st /\
    (deletedCount st1 = S (deletedCount st) /\
     failedCount st1 = failedCount st \/
     deletedCount st1 = deletedCount st /\
     failedCount st1 = S (failedCount st)).
Proof.
  destruct (v2_deleteTweet (id tweet) (world st)) as [[r|error] w] eqn:E.
  - eexists _, _. split; [apply (deleteOne_resolved _ _ _ _ _ E) |].
    repeat split. left. split; reflexivity.
  - destruct (code429 error) eqn:C.
    + apply code429_iff in C.
      eexists _, _. split; [apply (deleteOne_429 _ _ _ _ _ E C) |].
      repeat split. right. split; reflexivity.
    + assert (C' : code error <> Some 429).
      { intros X. apply code429_iff in X. congruence. }
      eexists _, _. split; [apply (deleteOne_failed _ _ _ _ _ E C') |].
      repeat split. right. split; reflexivity.
Qed.

(** The loop over [done ++ todo] first runs over [done], completes, and
    goes on over [todo]; by then it has called delete on the tweets of
    [done], in order, and the counters have advanced by their number. *)
Lemma forOf_app total done todo (st : State W) :
  exists st1 t1,
    forOf total done st = (Fulfilled tt, st1, t1) /\
    forOf total (done ++ todo) st = prepend t1 (forOf total todo st1) /\
    deleteTweet_calls t1 = map id done /\
    USER_ID st1 = USER_ID st /\
    (deletedCount st1 + failedCount st1 =
     deletedCount st + failedCount st + List.length done)%nat.
Proof.
  revert st. induction done as [|tweet done IH]; intros st.
  - exists st, []. simpl. repeat split; try lia.
    destruct (forOf total todo st) as [[o st2] t2]. reflexivity.
  - destruct (deleteOne_turn total tweet st) as (st1 & t1 & E1 & C1 & U1 & N1).
    destruct (IH st1) as (st2 & t2 & E2 & A2 & C2 & U2 & N2).
    exists st2, (t1 ++ t2). repeat split.
    + rewrite (forOf_cons _ _ _ _ _ _ E1), E2. reflexivity.
    + simpl app. rewrite (forOf_cons _ _ _ _ _ _ E1), A2.
      destruct (forOf total todo st2) as [[o st3] t3]. simpl.
      rewrite app_assoc. reflexivity.
    + rewrite deleteTweet_calls_app, C1, C2. reflexivity.
    + congruence.
    + simpl List.length. destruct N1 as [[D F]|[D F]]; lia.
Qed.

Lemma forOf_all total tweets (st : State W) :
  exists st1 t1,
    forOf total tweets st = (Fulfilled tt, st1, t1) /\
    deleteTweet_calls t1 = map id tweets /\
    USER_ID st1 = USER_ID st /\
    (deletedCount st1 + failedCount st1 =
     deletedCount st + failedCount st + List.length tweets)%nat.
Proof.
  destruct (forOf_app total tweets [] st) as (st1 & t1 & E & _ & C & U & N).
  exists st1, t1. repeat split; assumption.
Qed.

End Loop.

(** ** The two retrying operations *)

Section Retry.

Context {W : Type} `{Platform W}.

Lemma waitForReset_run (error : Error) (st : State W) :
  waitForReset error st =
  (Fulfilled tt,
   set_world (timer (waitOf error (world st)) (world st)) st,
   waitEvents error (world st)).
Proof. reflexivity. Qed.

Lemma getUserId_settled fuel (st : State W) reply w :
  cached st = None ->
  v2_me (world st) = (reply, w) ->
  limited reply = false ->
  getUserId (S fuel) st = (settled data reply, set_world w st, [me]).
Proof.
  intros C E L. simpl. rewrite C.
  unfold try_catch, bind, client_v2_me, call. rewrite E.
  destruct reply as [r|error]; [reflexivity |].
  simpl in L. rewrite L. reflexivity.
Qed.

Lemma getUserId_limited fuel (st : State W) error w :
  cached st = None ->
  v2_me (world st) = (reject error, w) ->
  isRateLimitError error = true ->
  getUserId (S fuel) st =
  prepend (me :: waitEvents error w)
    (getUserId fuel (set_world (timer (waitOf error w) w) st)).
Proof.
  intros C E L. simpl. rewrite C.
  unfold try_catch, bind, client_v2_me, call. rewrite E, L.
  rewrite waitForReset_run. simpl world.
  destruct (getUserId fuel _) as [[o st2] t2]. reflexivity.
Qed.

(** More fuel does not change a promise that settled. *)
Lemma getUserId_more fuel :
  forall (st : State W) o st' t,
    getUserId fuel st = (o, st', t) -> o <> Pending ->
    forall fuel', (fuel <= fuel')%nat -> getUserId fuel' st = (o, st', t).
Proof.
  induction fuel as [|fuel IH]; intros st o st' t E NP fuel' L.
  - inversion E; subst. contradiction.
  - destruct fuel' as [|fuel']; [lia |].
    simpl in E |- *. destruct (cached st) as [userId|]; [exact E |].
    unfold try_catch, bind, client_v2_me, call in E |- *.
    destruct (v2_me (world st)) as [[r|error] w]; [exact E |].
    destruct (isRateLimitError error); [| exact E].
    rewrite waitForReset_run in E |- *.
    destruct (getUserId fuel _) as [[o2 st2] t2] eqn:E2.
    rewrite (IH _ _ _ _ E2) with (fuel' := fuel'); [exact E | | lia].
    inversion E; subst. exact NP.
Qed.

(** [getUserId] lets no rate-limit error out. *)
Lemma getUserId_rejects fuel :
  forall (st : State W) error st' t,
    getUserId fuel st = (Rejected error, st', t) ->
    isRateLimitError error = false.
Proof.
  induction fuel as [|fuel IH]; intros st error st' t E.
  - inversion E.
  - simpl in E. destruct (cached st) as [userId|]; [inversion E |].
    unfold try_catch, bind, client_v2_me, call in E.
    destruct (v2_me (world st)) as [[r|error1] w]; [inversion E |].
    destruct (isRateLimitError error1) eqn:L.
    + rewrite waitForReset_run in E.
      destruct (getUserId fuel _) as [[o2 st2] t2] eqn:E2.
      inversion E; subst. eapply IH. exact E2.
    + inversion E; subst. exact L.
Qed.

Lemma getUserId_retries waits :
  forall (st : State W) w reply w' fuel,
    cached st = None ->
    me_limited waits (world st) w ->
    v2_me w = (reply, w') ->
    limited reply = false ->
    (List.length waits < fuel)%nat ->
    exists before,
      getUserId fuel st =
      (settled data reply, set_world w' st, before ++ [me]) /\
      me_calls before = List.length waits /\
      sleeps before = waits.
Proof.
  induction waits as [|ms waits IH]; intros st w reply w' fuel C M E L F;
    inversion M; subst; (destruct fuel as [|fuel]; [simpl in F; lia |]).
  - exists []. rewrite (getUserId_settled _ _ _ _ C E L). repeat split.
  - match goal with
    | [ E1 : v2_me (world st) = _, L1 : isRateLimitError _ = true,
        M1 : me_limited waits _ w |- _ ] =>
        rewrite (getUserId_limited _ _ _ _ C E1 L1);
        destruct (IH (set_world (timer (waitOf error w1) w1) st)
                    w reply w' fuel C M1 E L) as (t & R & N & S1)
    end; [simpl in F; lia |].
    rewrite R. exists (me :: waitEvents error w1 ++ t).
    split; [| split].
    + unfold prepend, waitEvents. simpl. reflexivity.
    + simpl. rewrite N. reflexivity.
    + simpl. rewrite S1. reflexivity.
Qed.

Lemma getAllTweetsAtOnce_settled fuel (st st1 : State W) userId t1 reply w :
  getUserId fuel st = (Fulfilled userId, st1, t1) ->
  v2_userTimeline userId fetchOptions (world st1) = (reply, w) ->
  limited reply = false ->
  getAllTweetsAtOnce (S fuel) st =
  (settled data reply, set_world w st1,
   t1 ++ [userTimeline userId fetchOptions]).
Proof.
  intros G E L. simpl.
  unfold try_catch, bind, client_v2_userTimeline, call. rewrite G.
  fold fetchOptions. rewrite E.
  destruct reply as [r|error]; simpl.
  - reflexivity.
  - simpl in L. rewrite L. simpl. rewrite app_nil_r. reflexivity.
Qed.

Lemma getAllTweetsAtOnce_limited fuel (st st1 : State W) userId t1 error w :
  getUserId fuel st = (Fulfilled userId, st1, t1) ->
  v2_userTimeline userId fetchOptions (world st1) = (reject error, w) ->
  isRateLimitError error = true ->
  getAllTweetsAtOnce (S fuel) st =
  prepend (t1 ++ userTimeline userId fetchOptions :: waitEvents error w)
    (getAllTweetsAtOnce fuel (set_world (timer (waitOf error w) w) st1)).
Proof.
  intros G E L. simpl.
  unfold try_catch, bind, client_v2_userTimeline, call. rewrite G.
  fold fetchOptions. rewrite E, L. rewrite waitForReset_run. simpl world.
  destruct (getAllTweetsAtOnce fuel _) as [[o st2] t2].
  unfold prepend. rewrite <- !app_assoc. reflexivity.
Qed.

Lemma getAllTweetsAtOnce_propagates fuel (st st1 : State W) error t1 :
  getUserId fuel st = (Rejected error, st1, t1) ->
  getAllTweetsAtOnce (S fuel) st = (Rejected error, st1, t1).
Proof.
  intros G. simpl. unfold try_catch, bind. rewrite G.
  rewrite (getUserId_rejects _ _ _ _ _ G). simpl.
  rewrite app_nil_r. reflexivity.
Qed.

Lemma getUserId_silent fuel (st : State W) o st' t :
  getUserId fuel st = (o, st', t) -> userTimeline_calls t = O.
Proof.
  apply (keeps_getUserId silent); unfold silent; try reflexivity.
  intros _ _ _ t1 t2 E1 E2. rewrite userTimeline_calls_app, E1, E2.
  reflexivity.
Qed.

(** After the refusals of [waits], the last attempt ends the retrieval
    as soon as it ends with anything but a rate-limit error: [o] is how
    [getUserId] ends in it and [tail] what the attempt does. *)
Lemma getAllTweetsAtOnce_retries waits (st st' : State W) :
  timeline_limited waits st st' ->
  forall fuel0 o st1 t1,
    getUserId fuel0 st' = (o, st1, t1) ->
    forall result st2 tail,
      match o with
      | Fulfilled userId =>
          exists reply w,
            v2_userTimeline userId fetchOptions (world st1) = (reply, w) /\
            limited reply = false /\
            result = settled data reply /\ st2 = set_world w st1 /\
            tail = t1 ++ [userTimeline userId fetchOptions]
      | Rejected error =>
          result = Rejected error /\ st2 = st1 /\ tail = t1
      | Pending => False
      end ->
      exists enough, forall fuel, (enough <= fuel)%nat ->
        exists before,
          getAllTweetsAtOnce fuel st = (result, st2, before ++ tail) /\
          userTimeline_calls before = List.length waits /\
          (forall ms, In ms waits -> In ms (sleeps before)).
Proof.
  induction 1 as [st | fuel1 st userId st1' t1' error w st' waits G E L M IH];
    intros fuel0 o st1 t1 G0 result st2 tail Last.
  - exists (S fuel0). intros fuel F.
    destruct fuel as [|fuel]; [lia |].
    destruct o as [userId|error|]; [| | contradiction].
    + destruct Last as (reply & w & E & L & -> & -> & ->).
      assert (G1 := getUserId_more _ _ _ _ _ G0 ltac:(discriminate) fuel
                      ltac:(lia)).
      rewrite (getAllTweetsAtOnce_settled _ _ _ _ _ _ _ G1 E L).
      exists []. split; [reflexivity |]. split; [reflexivity | intros ms []].
    + destruct Last as (-> & -> & ->).
      assert (G1 := getUserId_more _ _ _ _ _ G0 ltac:(discriminate) fuel
                      ltac:(lia)).
      rewrite (getAllTweetsAtOnce_propagates _ _ _ _ _ G1).
      exists []. split; [reflexivity |]. split; [reflexivity | intros ms []].
  - destruct (IH _ _ _ _ G0 _ _ _ Last) as (enough & Run).
    exists (S (Nat.max fuel1 enough)). intros fuel F.
    destruct fuel as [|fuel]; [lia |].
    assert (G1 := getUserId_more _ _ _ _ _ G ltac:(discriminate) fuel
                    ltac:(lia)).
    rewrite (getAllTweetsAtOnce_limited _ _ _ _ _ _ _ G1 E L).
    destruct (Run fuel ltac:(lia)) as (t & R & N & S1).
    rewrite R.
    exists ((t1' ++ userTimeline userId fetchOptions :: waitEvents error w)
              ++ t).
    split; [| split].
    + unfold prepend. rewrite <- !app_assoc. reflexivity.
    + rewrite !userTimeline_calls_app, (getUserId_silent _ _ _ _ _ G).
      simpl. rewrite N. reflexivity.
    + intros ms Hin. rewrite <- app_assoc, sleeps_app.
      apply in_or_app. right. unfold waitEvents. simpl.
      destruct Hin as [<- | Hin]; [left; reflexivity | right; auto].
Qed.

End Retry.

(** ** The run of [deleteTweets] *)

Section Run.

Context {W : Type} `{Platform W}.
Variable USERNAME : string.

Lemma checkApiStatus_user_rejected (st : State W) error w :
  v2_userByUsername USERNAME (world st) = (reject error, w) ->
  checkApiStatus USERNAME st =
  (Fulfilled false, set_world w st,
   console_log [Text "\nChecking API status..."]
   :: userByUsername USERNAME :: reported error).
Proof.
  intros E.
  unfold checkApiStatus, try_catch, bind, client_v2_userByUsername, call.
  simpl. rewrite E. unfold reported. simpl.
  destruct (code429 error); reflexivity.
Qed.

Lemma checkApiStatus_timeline_rejected (st : State W) r w userId error w' :
  v2_userByUsername USERNAME (world st) = (resolve r, w) ->
  data r = Some userId ->
  v2_userTimeline userId preflightOptions w = (reject error, w') ->
  checkApiStatus USERNAME st =
  (Fulfilled false, set_world w' st,
   [console_log [Text "\nChecking API status..."];
    userByUsername USERNAME;
    console_log [Text "\n[User Information API Rate Limit]"];
    console_log [Limits (formatRateLimit (response_rateLimit r))];
    userTimeline userId preflightOptions] ++ reported error).
Proof.
  intros E D E'.
  unfold checkApiStatus, try_catch, bind, client_v2_userByUsername,
    client_v2_userTimeline, call.
  simpl. rewrite E. simpl. rewrite D. fold preflightOptions.
  change (world (set_world w st)) with w. rewrite E'.
  unfold reported. simpl. destruct (code429 error); reflexivity.
Qed.

Lemma deleteTweets_aborts fuel (st st1 : State W) t1 :
  checkApiStatus USERNAME st = (Fulfilled false, st1, t1) ->
  deleteTweets USERNAME fuel st =
  (Fulfilled tt, st1,
   console_log [Text "Checking API status..."] :: t1 ++ [cannotProceed]).
Proof.
  intros E. unfold deleteTweets, try_catch, bind. simpl. rewrite E.
  reflexivity.
Qed.

Lemma deleteTweets_proceeds fuel (st st1 st2 st3 : State W) t1 t2 t3 tweets :
  checkApiStatus USERNAME st = (Fulfilled true, st1, t1) ->
  getAllTweetsAtOnce fuel st1 = (Fulfilled tweets, st2, t2) ->
  deleteAllButFirst tweets st2 = (Fulfilled tt, st3, t3) ->
  deleteTweets USERNAME fuel st =
  (Fulfilled tt, st3,
   console_log [Text "Checking API status..."] :: t1
     ++ console_log [Text "\nRetrieving tweets..."] :: t2 ++ t3).
Proof.
  intros E1 E2 E3. unfold deleteTweets, try_catch, bind. simpl.
  rewrite E1. simpl. rewrite E2, E3. reflexivity.
Qed.

(** Lines 143-185 always complete; the delete calls are those of the loop
    over [tweets.slice(1)], and the summary prints the two counters. *)
Lemma deleteAllButFirst_run tweets (st : State W) :
  exists st' t,
    deleteAllButFirst tweets st = (Fulfilled tt, st', t) /\
    deleteTweet_calls t = map id (slice1 tweets) /\
    ((1 < List.length tweets)%nat ->
     (deletedCount st' + failedCount st' = List.length tweets - 1)%nat /\
     In (successful (deletedCount st')) t /\
     In (failed (failedCount st')) t).
Proof.
  unfold deleteAllButFirst.
  destruct (List.length tweets <=? 1)%nat eqn:L.
  - apply Nat.leb_le in L. eexists _, _. split; [reflexivity |]. split.
    + destruct tweets as [|first [|second rest]]; simpl in *; try reflexivity.
      lia.
    + intros; lia.
  - apply Nat.leb_gt in L.
    destruct (forOf_all (List.length (slice1 tweets)) (slice1 tweets)
                (set_counts 0 0 st)) as (st1 & t1 & E & C & _ & N).
    unfold bind, emit, let_counts, counters. rewrite E. simpl.
    assert (Len : List.length (slice1 tweets) = (List.length tweets - 1)%nat).
    { unfold slice1. rewrite length_skipn. reflexivity. }
    destruct (0 <? failedCount st1)%nat; eexists _, _;
      (split; [reflexivity |]); simpl;
      rewrite deleteTweet_calls_app; simpl; rewrite app_nil_r;
      (split; [exact C |]); intros _; simpl in N;
      (split; [lia |]);
      split; right; right; apply in_or_app; right; simpl;
      unfold successful, failed; auto 6.
Qed.

End Run.

(** ** The claims *)

(** C1. [calculateWaitTime]: an absent marker gives exactly 900000 ms;
    otherwise, with [waitSeconds] the reset time stamp minus the current
    epoch second, a wait of at most zero gives 900000 ms and a positive one
    gives [min (waitSeconds * 1000 + 60000) 3600000].  The clock is not
    before the epoch and the runtime parses the empty string to an invalid
    date. *)
Theorem calculateWaitTime_cases
  (Date_parse : string -> option Z) (Date_now : Z) (resetTime : ResetTime) :
  Date_parse EmptyString = None ->
  0 <= Date_now ->
  (absent resetTime ->
   calculateWaitTime Date_parse Date_now resetTime = num 900000) /\
  (~ absent resetTime ->
   let waitSeconds :=
     sub (resetTimestamp Date_parse Date_now resetTime) (now Date_now) in
   (le waitSeconds 0 = true ->
    calculateWaitTime Date_parse Date_now resetTime = num 900000) /\
   (gt waitSeconds 0 = true ->
    calculateWaitTime Date_parse Date_now resetTime =
    Math_min (add (mul waitSeconds 1000) 60000) (num 3600000))).
Proof.
  intros Hempty Hclock. split.
  - intros [-> | ->]; reflexivity.
  - intros Hpresent ws. unfold calculateWaitTime.
    destruct (truthy resetTime) eqn:Ht; simpl negb; cbv iota.
    + fold ws. unfold waitSeconds. fold ws. split; intros Hws.
      * rewrite Hws. reflexivity.
      * rewrite (gt_0_not_le _ Hws). reflexivity.
    + split; [reflexivity |]. intros Hws. exfalso.
      destruct resetTime as [| |s|n]; simpl in Ht.
      * apply Hpresent. left. reflexivity.
      * apply Hpresent. right. reflexivity.
      * apply negb_false_iff, String.eqb_eq in Ht. subst s.
        unfold ws, resetTimestamp, getTime in Hws. rewrite Hempty in Hws.
        discriminate Hws.
      * unfold ws, resetTimestamp in Hws.
        rewrite (falsy_number_waits_nothing _ _ Hclock Ht) in Hws.
        discriminate Hws.
Qed.

Lemma calculateWaitTime_cases_witness :
  Mock.parse EmptyString = None /\ 0 <= Mock.newYear /\
  calculateWaitTime Mock.parse Mock.newYear (Num 1767226200) = num 660000.
Proof.
  split; [reflexivity |]. split; [unfold Mock.newYear; lia |].
  destruct (calculateWaitTime_cases Mock.parse Mock.newYear (Num 1767226200))
    as [_ Present]; [reflexivity | unfold Mock.newYear; lia |].
  destruct Present as [_ Positive].
  - intros [A | A]; discriminate A.
  - rewrite Positive; reflexivity.
Defined.

(** C10. [calculateWaitTime] takes every falsy marker for an absent one:
    the number 0 and the empty string give the floor of 900000 ms, whatever
    the clock and the date parser, and so does any marker that is not
    truthy. *)
Theorem calculateWaitTime_falsy
  (Date_parse : string -> option Z) (Date_now : Z) :
  calculateWaitTime Date_parse Date_now (Num 0) = num 900000 /\
  calculateWaitTime Date_parse Date_now (Str EmptyString) = num 900000 /\
  forall resetTime,
    truthy resetTime = false ->
    calculateWaitTime Date_parse Date_now resetTime = num 900000.
Proof.
  split; [reflexivity |]. split; [reflexivity |].
  intros resetTime F. unfold calculateWaitTime. rewrite F. reflexivity.
Qed.

Lemma calculateWaitTime_falsy_witness :
  truthy (Num NaN) = false /\
  calculateWaitTime Mock.parse Mock.newYear (Num NaN) = num 900000.
Proof.
  split; [reflexivity |].
  apply (calculateWaitTime_falsy Mock.parse Mock.newYear). reflexivity.
Defined.

(** The four sample values of the specification, the clock at
    2026-01-01T00:00:00Z: no marker; five minutes ago; in ten minutes, as a
    number and as a date; in two hours. *)
Example calculateWaitTime_undefined :
  calculateWaitTime Mock.parse Mock.newYear Undefined = num 900000.
Proof. reflexivity. Qed.

Example calculateWaitTime_past :
  calculateWaitTime Mock.parse Mock.newYear (Num 1767225300) = num 900000.
Proof. reflexivity. Qed.

Example calculateWaitTime_ten_minutes :
  calculateWaitTime Mock.parse Mock.newYear (Num 1767226200) = num 660000 /\
  calculateWaitTime Mock.parse Mock.newYear (Str "2026-01-01T00:10:00.000Z")
  = num 660000.
Proof. split; reflexivity. Qed.

Example calculateWaitTime_two_hours :
  calculateWaitTime Mock.parse Mock.newYear (Num 1767232800) = num 3600000.
Proof. reflexivity. Qed.

(** A date the runtime cannot parse is truthy and gives NaN: neither test
    on [waitSeconds] holds of it. *)
Example calculateWaitTime_invalid_date :
  calculateWaitTime Mock.parse Mock.newYear (Str "yesterday") = NaN.
Proof. reflexivity. Qed.

(** C8. In the loop, when the delete call of a candidate resolves, the turn
    counts it, prints its two lines and sleeps 5000 ms, whatever the
    response carries; the loop then goes on with the next candidate, from
    the world the timer left. *)
Theorem deleteOne_sleeps_after_success
  {W : Type} `{Platform W} (total : nat) (tweet : TweetV2)
  (rest : list TweetV2) (st : State W) (r : Response unit) (w : W) :
  v2_deleteTweet (id tweet) (world st) = (resolve r, w) ->
  let st1 :=
    turned (S (deletedCount st)) (failedCount st) (timer (num 5000) w) st in
  let t1 :=
    deleteTweet (id tweet) :: deletionLines total (S (deletedCount st)) r
      ++ [setTimeout (num 5000)] in
  deleteOne total tweet st = (Fulfilled tt, st1, t1) /\
  sleeps t1 = [num 5000] /\
  forOf total (tweet :: rest) st = prepend t1 (forOf total rest st1).
Proof.
  intros E st1 t1.
  assert (R := deleteOne_resolved total tweet st r w E).
  split; [exact R |]. split; [reflexivity |].
  apply forOf_cons. exact R.
Qed.

Lemma deleteOne_sleeps_after_success_witness :
  v2_deleteTweet "2" (world Mock.twoDeletions)
  = (Mock.ok tt, Mock.deleting [Mock.ok tt]) /\
  sleeps (snd (deleteOne 2 (Mock.tweet "2") Mock.twoDeletions)) = [num 5000] /\
  sleeps (snd (forOf 2 [Mock.tweet "2"; Mock.tweet "1"] Mock.twoDeletions))
  = [num 5000; num 5000].
Proof.
  assert (E : v2_deleteTweet "2" (world Mock.twoDeletions)
              = (Mock.ok tt, Mock.deleting [Mock.ok tt])) by reflexivity.
  split; [exact E |].
  destruct (deleteOne_sleeps_after_success 2 (Mock.tweet "2")
              [Mock.tweet "1"] Mock.twoDeletions _ _ E)
    as (One & Slept & Next).
  split.
  - rewrite One. exact Slept.
  - rewrite Next. reflexivity.
Defined.

(** C5. In the loop, when the delete call of a candidate is rejected with
    code 429, the wait slept before the loop moves on is
    [calculateWaitTime] of the candidate's own [created_at], read at the
    clock of the world the call left; the metadata of the error is printed
    and plays no part in the wait. *)
Theorem deleteOne_429_waits_on_created_at
  {W : Type} `{Platform W} (total : nat) (tweet : TweetV2)
  (rest : list TweetV2) (st : State W) (error : Error) (w : W) :
  v2_deleteTweet (id tweet) (world st) = (reject error, w) ->
  code error = Some 429 ->
  let waitTime :=
    calculateWaitTime Date_parse (Date_now w) (createdAt tweet) in
  let st1 :=
    turned (deletedCount st) (S (failedCount st)) (timer waitTime w) st in
  let t1 :=
    deleteTweet (id tweet) :: failureLine tweet error :: rateLimitLines error
      ++ [setTimeout waitTime] in
  deleteOne total tweet st = (Fulfilled tt, st1, t1) /\
  sleeps t1 = [waitTime] /\
  forOf total (tweet :: rest) st = prepend t1 (forOf total rest st1).
Proof.
  intros E C waitTime st1 t1.
  assert (R := deleteOne_429 total tweet st error w E C).
  split; [exact R |]. split; [reflexivity |].
  apply forOf_cons. exact R.
Qed.

Lemma deleteOne_429_waits_on_created_at_witness :
  v2_deleteTweet "2" (world Mock.refused429)
  = (reject (Mock.tooManyRequests 1767226200), Mock.deleting []) /\
  code (Mock.tooManyRequests 1767226200) = Some 429 /\
  calculateWaitTime Mock.parse Mock.newYear
    (resetOf (Mock.tooManyRequests 1767226200)) = num 660000 /\
  sleeps (snd (deleteOne 2 (Mock.tweet "2") Mock.refused429)) = [num 900000].
Proof.
  assert (E : v2_deleteTweet "2" (world Mock.refused429)
              = (reject (Mock.tooManyRequests 1767226200), Mock.deleting []))
    by reflexivity.
  assert (C : code (Mock.tooManyRequests 1767226200) = Some 429)
    by reflexivity.
  split; [exact E |]. split; [exact C |]. split; [reflexivity |].
  destruct (deleteOne_429_waits_on_created_at 2 (Mock.tweet "2") []
              Mock.refused429 _ _ E C) as (One & Slept & _).
  rewrite One. exact Slept.
Defined.

(** C6. In the loop, when the delete call of a candidate is rejected with
    anything but code 429, the turn adds one to [failedCount], sleeps
    10000 ms, twice the interval, and the loop goes on with the next
    candidate; the loop as a whole completes, with one delete call for the
    failed candidate and one for each of the others, in order. *)
Theorem deleteOne_failure_moves_on
  {W : Type} `{Platform W} (total : nat) (tweet : TweetV2)
  (rest : list TweetV2) (st : State W) (error : Error) (w : W) :
  v2_deleteTweet (id tweet) (world st) = (reject error, w) ->
  code error <> Some 429 ->
  let st1 :=
    turned (deletedCount st) (S (failedCount st)) (timer (num 10000) w) st in
  let t1 :=
    [deleteTweet (id tweet); failureLine tweet error; setTimeout (num 10000)] in
  deleteOne total tweet st = (Fulfilled tt, st1, t1) /\
  mul DELETE_INTERVAL 2 = num 10000 /\
  forOf total (tweet :: rest) st = prepend t1 (forOf total rest st1) /\
  exists st2 t,
    forOf total (tweet :: rest) st = (Fulfilled tt, st2, t) /\
    deleteTweet_calls t = id tweet :: map id rest.
Proof.
  intros E C st1 t1.
  assert (R := deleteOne_failed total tweet st error w E C).
  split; [exact R |]. split; [reflexivity |].
  split; [apply forOf_cons; exact R |].
  destruct (forOf_all total (tweet :: rest) st) as (st2 & t & Run & Calls & _).
  exists st2, t. split; [exact Run | exact Calls].
Qed.

Lemma deleteOne_failure_moves_on_witness :
  v2_deleteTweet "2" (world Mock.refused403)
  = (reject Mock.forbidden, Mock.deleting [Mock.ok tt]) /\
  code Mock.forbidden <> Some 429 /\
  forOf 2 [Mock.tweet "2"; Mock.tweet "1"] Mock.refused403 =
  (Fulfilled tt,
   {| USER_ID := None; deletedCount := 1; failedCount := 1;
      world := timer (num 5000) (timer (num 10000) (Mock.deleting [])) |},
   [deleteTweet "2"; failureLine (Mock.tweet "2") Mock.forbidden;
    setTimeout (num 10000);
    deleteTweet "1"]
   ++ deletionLines 2 1 {| data := tt; response_rateLimit := None |}
   ++ [setTimeout (num 5000)]).
Proof.
  assert (E : v2_deleteTweet "2" (world Mock.refused403)
              = (reject Mock.forbidden, Mock.deleting [Mock.ok tt]))
    by reflexivity.
  assert (C : code Mock.forbidden <> Some 429) by discriminate.
  split; [exact E |]. split; [exact C |].
  destruct (deleteOne_failure_moves_on 2 (Mock.tweet "2") [Mock.tweet "1"]
              Mock.refused403 Mock.forbidden _ E C) as (_ & _ & Next & _).
  rewrite Next. reflexivity.
Defined.

(** C9. In the run over the candidates [tweets.slice(1)], from both
    counters at zero: once the loop has been over any first part [done] of
    them, [deletedCount + failedCount] is the number of tweets of [done], and
    the turn that follows moves exactly one of the two counters by one; at
    the summary the two counters printed add up to the number of
    candidates, one less than the number of tweets. *)
Theorem counters_add_up
  {W : Type} `{Platform W} (tweets done todo : list TweetV2) (st : State W) :
  (1 < List.length tweets)%nat ->
  slice1 tweets = done ++ todo ->
  let total := List.length (slice1 tweets) in
  (exists st1 t1,
     forOf total done (set_counts 0 0 st) = (Fulfilled tt, st1, t1) /\
     forOf total (slice1 tweets) (set_counts 0 0 st)
     = prepend t1 (forOf total todo st1) /\
     (deletedCount st1 + failedCount st1 = List.length done)%nat /\
     forall tweet, exists st2 t2,
       deleteOne total tweet st1 = (Fulfilled tt, st2, t2) /\
       (deletedCount st2 = S (deletedCount st1) /\
        failedCount st2 = failedCount st1 \/
        deletedCount st2 = deletedCount st1 /\
        failedCount st2 = S (failedCount st1))) /\
  (exists st' t,
     deleteAllButFirst tweets st = (Fulfilled tt, st', t) /\
     (deletedCount st' + failedCount st' = List.length tweets - 1)%nat /\
     In (successful (deletedCount st')) t /\
     In (failed (failedCount st')) t).
Proof.
  intros Many Parts total. split.
  - destruct (forOf_app total done todo (set_counts 0 0 st))
      as (st1 & t1 & Run & Next & _ & _ & Sum).
    exists st1, t1. rewrite Parts. repeat split; try assumption.
    intros tweet.
    destruct (deleteOne_turn total tweet st1)
      as (st2 & t2 & One & _ & _ & Moved).
    exists st2, t2. split; assumption.
  - destruct (deleteAllButFirst_run tweets st) as (st' & t & Run & _ & Summary).
    destruct (Summary Many) as (Sum & Printed).
    exists st', t. repeat split; try assumption; apply Printed.
Qed.

Lemma counters_add_up_witness :
  (1 < List.length [Mock.tweet "3"; Mock.tweet "2"; Mock.tweet "1"])%nat /\
  slice1 [Mock.tweet "3"; Mock.tweet "2"; Mock.tweet "1"]
  = [Mock.tweet "2"] ++ [Mock.tweet "1"] /\
  exists st' t,
    deleteAllButFirst [Mock.tweet "3"; Mock.tweet "2"; Mock.tweet "1"]
      Mock.refused403 = (Fulfilled tt, st', t) /\
    (deletedCount st' + failedCount st' = 2)%nat /\
    In (successful (deletedCount st')) t /\
    In (failed (failedCount st')) t.
Proof.
  assert (Many : (1 < List.length
                        [Mock.tweet "3"; Mock.tweet "2"; Mock.tweet "1"])%nat)
    by (simpl; lia).
  split; [exact Many |]. split; [reflexivity |].
  exact (proj2 (counters_add_up
                  [Mock.tweet "3"; Mock.tweet "2"; Mock.tweet "1"]
                  [Mock.tweet "2"] [Mock.tweet "1"] Mock.refused403
                  Many eq_refl)).
Defined.

(** C2. In a run of [deleteTweets] whose preflight passes and whose
    retrieval gives [tweets]: the run completes, and its delete calls are
    the ids of [tweets] from the second on, in order.  So there is none
    for zero or one tweet, there are N-1 of them for N > 1 tweets, and, the
    ids being distinct, none is for the first tweet. *)
Theorem deleteTweets_spares_the_first
  {W : Type} `{Platform W} (USERNAME : string) (fuel : nat)
  (st st1 st2 : State W) (t1 t2 : list event) (tweets : list TweetV2) :
  checkApiStatus USERNAME st = (Fulfilled true, st1, t1) ->
  getAllTweetsAtOnce fuel st1 = (Fulfilled tweets, st2, t2) ->
  exists st3 t,
    deleteTweets USERNAME fuel st = (Fulfilled tt, st3, t) /\
    deleteTweet_calls t = map id (skipn 1 tweets) /\
    ((List.length tweets <= 1)%nat -> deleteTweet_calls t = []) /\
    ((1 < List.length tweets)%nat ->
     List.length (deleteTweet_calls t) = (List.length tweets - 1)%nat) /\
    (forall first rest,
       tweets = first :: rest -> ~ In (id first) (map id rest) ->
       ~ In (id first) (deleteTweet_calls t)).
Proof.
  intros Preflight Retrieval.
  destruct (deleteAllButFirst_run tweets st2) as (st3 & t3 & Run & Calls & _).
  destruct (checkApiStatus_quiet _ _ _ _ _ Preflight) as (_ & _ & _ & Q1).
  destruct (getAllTweetsAtOnce_quiet _ _ _ _ _ Retrieval) as (_ & _ & _ & Q2).
  eexists st3, _. split.
  { apply (deleteTweets_proceeds _ _ _ _ _ _ _ _ _ _ Preflight Retrieval Run). }
  assert (All : deleteTweet_calls
                  (console_log [Text "Checking API status..."] :: t1
                   ++ console_log [Text "\nRetrieving tweets..."] :: t2 ++ t3)
                = map id (skipn 1 tweets)).
  { simpl. rewrite deleteTweet_calls_app. simpl.
    rewrite deleteTweet_calls_app, Q1, Q2. exact Calls. }
  rewrite All. split; [reflexivity |]. split; [| split].
  - intros Few. destruct tweets as [|first [|second rest]]; simpl in *;
      try reflexivity. lia.
  - intros _. rewrite length_map, length_skipn. reflexivity.
  - intros first rest -> Fresh. exact Fresh.
Qed.

Lemma deleteTweets_spares_the_first_witness :
  exists st1 t1 st2 t2 st3 t,
    checkApiStatus "u" (Mock.start Mock.threeTweets)
    = (Fulfilled true, st1, t1) /\
    getAllTweetsAtOnce 5 st1
    = (Fulfilled [Mock.tweet "3"; Mock.tweet "2"; Mock.tweet "1"], st2, t2) /\
    deleteTweets "u" 5 (Mock.start Mock.threeTweets) = (Fulfilled tt, st3, t) /\
    deleteTweet_calls t = ["2"; "1"]%string /\
    deletedCount st3 = 2%nat /\ failedCount st3 = 0%nat.
Proof.
  set (run1 := checkApiStatus "u" (Mock.start Mock.threeTweets)).
  set (run2 := getAllTweetsAtOnce 5 (snd (fst run1))).
  assert (Preflight : run1 = (Fulfilled true, snd (fst run1), snd run1))
    by reflexivity.
  assert (Retrieval :
            run2 = (Fulfilled [Mock.tweet "3"; Mock.tweet "2"; Mock.tweet "1"],
                    snd (fst run2), snd run2))
    by reflexivity.
  destruct (deleteTweets_spares_the_first "u" 5 _ _ _ _ _ _
              Preflight Retrieval) as (st3 & t & Run & Calls & _).
  exists (snd (fst run1)), (snd run1), (snd (fst run2)), (snd run2), st3, t.
  split; [exact Preflight |]. split; [exact Retrieval |]. split; [exact Run |].
  split; [exact Calls |].
  vm_compute in Run. inversion Run; subst. split; reflexivity.
Defined.

(** C7. When the preflight raises an error, at the lookup of the user or
    at the small timeline page that follows it, [deleteTweets] completes
    with no delete call and no sleep; the one or two calls of the preflight
    are the only calls made, each once, and the error is printed, with its
    rate-limit information when its code is 429. *)
Theorem preflight_error_aborts
  {W : Type} `{Platform W} (USERNAME : string) (fuel : nat) (st : State W) :
  (forall error w,
     v2_userByUsername USERNAME (world st) = (reject error, w) ->
     let t :=
       console_log [Text "Checking API status..."]
       :: console_log [Text "\nChecking API status..."]
       :: userByUsername USERNAME :: reported error ++ [cannotProceed] in
     deleteTweets USERNAME fuel st = (Fulfilled tt, set_world w st, t) /\
     deleteTweet_calls t = [] /\
     sleeps t = [] /\
     client_calls t = [userByUsername USERNAME] /\
     (code error = Some 429 ->
      In (console_log [Limits (formatRateLimit (rateLimit error))]) t)) /\
  (forall r w userId error w',
     v2_userByUsername USERNAME (world st) = (resolve r, w) ->
     data r = Some userId ->
     v2_userTimeline userId preflightOptions w = (reject error, w') ->
     let t :=
       console_log [Text "Checking API status..."]
       :: ([console_log [Text "\nChecking API status..."];
            userByUsername USERNAME;
            console_log [Text "\n[User Information API Rate Limit]"];
            console_log [Limits (formatRateLimit (response_rateLimit r))];
            userTimeline userId preflightOptions] ++ reported error)
       ++ [cannotProceed] in
     deleteTweets USERNAME fuel st = (Fulfilled tt, set_world w' st, t) /\
     deleteTweet_calls t = [] /\
     sleeps t = [] /\
     client_calls t
     = [userByUsername USERNAME; userTimeline userId preflightOptions] /\
     (code error = Some 429 ->
      In (console_log [Limits (formatRateLimit (rateLimit error))]) t)).
Proof.
  split.
  - intros error w E t.
    split.
    { rewrite (deleteTweets_aborts _ _ _ _ _
                 (checkApiStatus_user_rejected USERNAME _ _ _ E)).
      reflexivity. }
    subst t. unfold reported.
    destruct (code429 error) eqn:C;
      (split; [reflexivity |]); (split; [reflexivity |]);
      (split; [reflexivity |]); intros C'.
    + simpl. auto 10.
    + apply code429_iff in C'. congruence.
  - intros r w userId error w' E D E' t.
    split.
    { rewrite (deleteTweets_aborts _ _ _ _ _
                 (checkApiStatus_timeline_rejected USERNAME _ _ _ _ _ _
                    E D E')).
      reflexivity. }
    subst t. unfold reported.
    destruct (code429 error) eqn:C;
      (split; [reflexivity |]); (split; [reflexivity |]);
      (split; [reflexivity |]); intros C'.
    + simpl. auto 10.
    + apply code429_iff in C'. congruence.
Qed.

Lemma preflight_error_aborts_witness :
  v2_userByUsername "u"
    (Mock.preflight [reject (Mock.tooManyRequests 1767226200)] [])
  = (reject (Mock.tooManyRequests 1767226200), Mock.preflight [] []) /\
  deleteTweets "u" 5
    (Mock.start (Mock.preflight [reject (Mock.tooManyRequests 1767226200)] []))
  = (Fulfilled tt, Mock.start (Mock.preflight [] []),
     [console_log [Text "Checking API status..."];
      console_log [Text "\nChecking API status..."];
      userByUsername "u";
      console_error
        [Text "\nError occurred while checking API status:";
         Text "Request failed with code 429"];
      console_log
        [Limits
           (RateLimitInformation (Some (num 50)) None
              (Some (num 1767226200000)))];
      cannotProceed]).
Proof.
  assert (E : v2_userByUsername "u"
                (world (Mock.start
                          (Mock.preflight
                             [reject (Mock.tooManyRequests 1767226200)] [])))
              = (reject (Mock.tooManyRequests 1767226200),
                 Mock.preflight [] [])) by reflexivity.
  split; [exact E |].
  exact (proj1 (proj1 (preflight_error_aborts "u" 5 _) _ _ E)).
Defined.

(** The cache of [getUserId] is read and never written: whatever the
    platform answers, [USER_ID] is after a call what it was before. *)
Lemma getUserId_never_caches
  {W : Type} `{Platform W} (fuel : nat) (st st' : State W) o t :
  getUserId fuel st = (o, st', t) -> USER_ID st' = USER_ID st.
Proof. intros Run. apply (getUserId_quiet _ _ _ _ _ Run). Qed.

(** C3, as the code has it: on a platform that answers every "who am I",
    a first call of [getUserId] resolves and leaves [USER_ID] empty, so a
    second call asks the platform again; in the run of [deleteTweets] where
    the timeline of the retrieval is refused once for its rate limit, the
    platform is asked twice. *)
Theorem getUserId_asks_again :
  getUserId 1 (Mock.start Mock.timelineLimitedOnce)
  = (Fulfilled "42"%string,
     snd (fst (getUserId 1 (Mock.start Mock.timelineLimitedOnce))), [me]) /\
  USER_ID (snd (fst (getUserId 1 (Mock.start Mock.timelineLimitedOnce))))
  = None /\
  fst (fst (getUserId 1
              (snd (fst (getUserId 1 (Mock.start Mock.timelineLimitedOnce))))))
  = Fulfilled "42"%string /\
  snd (getUserId 1
         (snd (fst (getUserId 1 (Mock.start Mock.timelineLimitedOnce)))))
  = [me] /\
  fst (fst (deleteTweets "u" 5 (Mock.start Mock.timelineLimitedOnce)))
  = Fulfilled tt /\
  me_calls (snd (deleteTweets "u" 5 (Mock.start Mock.timelineLimitedOnce)))
  = 2%nat.
Proof. repeat split; vm_compute; reflexivity. Qed.

(** C4. [getUserId] and [getAllTweetsAtOnce] on errors.  However many
    times in a row the call is refused for its rate limit, the operation
    sleeps the wait computed from each refusal and calls again, once per
    refusal, given the depth for it; the first reply that is not a
    rate-limit error ends it, a result as the result and any other error as
    the rejection, with nothing done after the call that got it.  An error
    of [getUserId] inside [getAllTweetsAtOnce] ends the retrieval the same
    way. *)
Theorem retries_without_ceiling {W : Type} `{Platform W} :
  (forall (st : State W) waits w reply w' fuel,
     cached st = None ->
     me_limited waits (world st) w ->
     v2_me w = (reply, w') ->
     limited reply = false ->
     (List.length waits < fuel)%nat ->
     exists before,
       getUserId fuel st =
       (settled data reply, set_world w' st, before ++ [me]) /\
       me_calls before = List.length waits /\
       sleeps before = waits) /\
  (forall (st st' : State W) waits fuel0 userId st1 t1 reply w,
     timeline_limited waits st st' ->
     getUserId fuel0 st' = (Fulfilled userId, st1, t1) ->
     v2_userTimeline userId fetchOptions (world st1) = (reply, w) ->
     limited reply = false ->
     exists enough, forall fuel, (enough <= fuel)%nat ->
       exists before,
         getAllTweetsAtOnce fuel st =
         (settled data reply, set_world w st1,
          before ++ t1 ++ [userTimeline userId fetchOptions]) /\
         userTimeline_calls before = List.length waits /\
         (forall ms, In ms waits -> In ms (sleeps before))) /\
  (forall (st st' : State W) waits fuel0 error st1 t1,
     timeline_limited waits st st' ->
     getUserId fuel0 st' = (Rejected error, st1, t1) ->
     exists enough, forall fuel, (enough <= fuel)%nat ->
       exists before,
         getAllTweetsAtOnce fuel st = (Rejected error, st1, before ++ t1) /\
         userTimeline_calls before = List.length waits /\
         (forall ms, In ms waits -> In ms (sleeps before))).
Proof.
  split; [| split].
  - intros st waits w reply w' fuel. apply getUserId_retries.
  - intros st st' waits fuel0 userId st1 t1 reply w M G E L.
    apply (getAllTweetsAtOnce_retries waits st st' M fuel0 _ _ _ G).
    exists reply, w. repeat split; assumption.
  - intros st st' waits fuel0 error st1 t1 M G.
    apply (getAllTweetsAtOnce_retries waits st st' M fuel0 _ _ _ G).
    repeat split.
Qed.

Lemma retries_without_ceiling_witness :
  (exists waits w st' before,
     me_limited waits (Mock.meLimited 4) w /\
     waits = [num 660000; num 900000; num 900000; num 900000] /\
     getUserId 5 (Mock.start (Mock.meLimited 4))
     = (Fulfilled "42"%string, st', before ++ [me]) /\
     me_calls before = 4%nat /\
     sleeps before = waits) /\
  (exists waits st' st2 enough before,
     timeline_limited waits
       (Mock.start
          (Mock.retrieval [Mock.ok "42"%string; Mock.ok "42"%string]
             [reject (Mock.tooManyRequests 1767226200);
              reject Mock.forbidden])) st' /\
     waits = [num 660000] /\
     getAllTweetsAtOnce enough
       (Mock.start
          (Mock.retrieval [Mock.ok "42"%string; Mock.ok "42"%string]
             [reject (Mock.tooManyRequests 1767226200);
              reject Mock.forbidden]))
     = (Rejected Mock.forbidden, st2,
        before ++ [me] ++ [userTimeline "42" fetchOptions]) /\
     userTimeline_calls before = 1%nat) /\
  (exists enough before,
     getAllTweetsAtOnce enough
       (Mock.start (Mock.retrieval [reject Mock.forbidden] []))
     = (Rejected Mock.forbidden, Mock.start (Mock.retrieval [] []),
        before ++ [me]) /\
     userTimeline_calls before = 0%nat).
Proof.
  split; [| split].
  - eassert (M : me_limited _ (world (Mock.start (Mock.meLimited 4))) _).
    { do 4 (eapply me_limited_cons; [reflexivity | reflexivity |]).
      apply me_limited_nil. }
    match type of M with
    | me_limited _ _ ?w =>
        eassert (E : v2_me w = (Mock.ok "42"%string, _)) by reflexivity
    end.
    destruct (proj1 retries_without_ceiling
                (Mock.start (Mock.meLimited 4)) _ _ _ _ 5%nat eq_refl M E
                eq_refl)
      as (before & Run & Calls & Sleeps); [simpl; lia |].
    eexists _, _, _, before. split; [exact M |].
    split; [reflexivity |]. split; [exact Run |].
    split; [exact Calls | exact Sleeps].
  - eassert (M : timeline_limited _
                   (Mock.start
                      (Mock.retrieval
                         [Mock.ok "42"%string; Mock.ok "42"%string]
                         [reject (Mock.tooManyRequests 1767226200);
                          reject Mock.forbidden])) _).
    { eapply (timeline_limited_cons 1);
        [reflexivity | reflexivity | reflexivity |].
      apply timeline_limited_nil. }
    match type of M with
    | timeline_limited _ _ ?s =>
        eassert (G : getUserId 1 s = (Fulfilled "42"%string, _, [me]))
          by reflexivity
    end.
    match type of G with
    | _ = (_, ?s1, _) =>
        eassert (E : v2_userTimeline "42" fetchOptions (world s1)
                     = (reject Mock.forbidden, _)) by reflexivity
    end.
    destruct (proj1 (proj2 retries_without_ceiling) _ _ _ _ _ _ _ _ _
                M G E eq_refl) as (enough & Run).
    destruct (Run enough (le_n enough)) as (before & Ran & Calls & _).
    eexists _, _, _, enough, before. split; [exact M |].
    split; [reflexivity |]. split; [exact Ran | exact Calls].
  - eassert (G : getUserId 1
                   (Mock.start (Mock.retrieval [reject Mock.forbidden] []))
                 = (Rejected Mock.forbidden, _, [me])) by reflexivity.
    destruct (proj2 (proj2 retries_without_ceiling) _ _ _ _ _ _ _
                (timeline_limited_nil _) G) as (enough & Run).
    destruct (Run enough (le_n enough)) as (before & Ran & Calls & _).
    exists enough, before. split; [exact Ran | exact Calls].
Defined.

(** ** Further properties: the wait computed *)

Lemma fin_whole (q : Q) (z : Z) : q == inject_Z z -> fin q = num z.
Proof.
  intros E. unfold fin, num. f_equal.
  rewrite (Qred_complete _ _ E). apply Qcanon.Qred_identity.
  simpl. apply Z.gcd_1_r.
Qed.

Lemma sub_whole (a b : Z) : sub (num a) (num b) = num (a - b).
Proof.
  unfold sub, num at 1 2. apply fin_whole.
  unfold Z.sub, Qminus. rewrite inject_Z_plus, inject_Z_opp. reflexivity.
Qed.

Lemma mul_whole (a b : Z) : mul (num a) (num b) = num (a * b).
Proof.
  unfold mul, num at 1 2. apply fin_whole. rewrite inject_Z_mult. reflexivity.
Qed.

Lemma add_whole (a b : Z) : add (num a) (num b) = num (a + b).
Proof.
  unfold add, num at 1 2. apply fin_whole. rewrite inject_Z_plus. reflexivity.
Qed.

Lemma le_whole (a b : Z) : le (num a) (num b) = (a <=? b).
Proof.
  unfold le, num, Qle_bool, inject_Z. simpl. rewrite !Z.mul_1_r. reflexivity.
Qed.

Lemma Math_min_whole (a b : Z) : Math_min (num a) (num b) = num (Z.min a b).
Proof.
  unfold Math_min. change (Fin (inject_Z a)) with (num a).
  change (match num a with NaN => NaN | _ =>
            match num b with NaN => NaN | _ =>
              if le (num a) (num b) then num a else num b end end)
    with (if le (num a) (num b) then num a else num b).
  rewrite le_whole. destruct (Z.leb_spec a b).
  - rewrite Z.min_l by assumption. reflexivity.
  - rewrite Z.min_r by lia. reflexivity.
Qed.

(** On a marker that is a whole number of epoch seconds, as the rate-limit
    headers give it, the wait is computed in whole milliseconds: the floor
    for 0 and for a reset not after the current second, else the seconds
    left times 1000 plus 60000, and no more than 3600000. *)
Theorem calculateWaitTime_whole_seconds
  (Date_parse : string -> option Z) (Date_now reset : Z) :
  calculateWaitTime Date_parse Date_now (Num (num reset)) =
  num (if reset =? 0 then 900000
       else
         let left := reset - Date_now / 1000 in
         if left <=? 0 then 900000
         else Z.min (left * 1000 + 60000) 3600000).
Proof.
  unfold calculateWaitTime, waitSeconds, resetTimestamp.
  rewrite now_seconds.
  assert (T : truthy (Num (num reset)) = negb (reset =? 0)).
  { unfold truthy, Number.truthy, num, Qeq_bool, inject_Z. simpl.
    rewrite Z.mul_1_r. destruct reset; reflexivity. }
  rewrite T, negb_involutive. destruct (reset =? 0); [reflexivity |].
  rewrite sub_whole. change (Fin 0) with (num 0). rewrite le_whole.
  cbv zeta. destruct (reset - Date_now / 1000 <=? 0); [reflexivity |].
  change (Fin 1000) with (num 1000). rewrite mul_whole.
  change (Fin 60000) with (num 60000). rewrite add_whole.
  unfold MAX_API_LIMIT_WAIT. apply Math_min_whole.
Qed.

Ltac closed_wait :=
  split;
  [ let E := fresh in intros E; vm_compute in E; discriminate E
  | split; vm_compute; reflexivity ].

Lemma wait_of_seconds (seconds : jsnum) :
  seconds <> NaN ->
  let waitTime :=
    if le seconds 0 then MIN_API_LIMIT_WAIT
    else Math_min (add (mul seconds 1000) 60000) MAX_API_LIMIT_WAIT in
  waitTime <> NaN /\ bounded waitTime.
Proof.
  intros Number. destruct seconds as [|negative|q]; [contradiction | |].
  - destruct negative; cbv zeta; closed_wait.
  - cbv zeta. change (le (Fin q) 0) with (Qle_bool q 0).
    destruct (Qle_bool q 0) eqn:Past; [closed_wait |].
    assert (Ahead : ~ (q <= 0)%Q).
    { intros L. apply Qle_bool_iff in L. congruence. }
    set (x := Qred (Qred (q * inject_Z 1000) + inject_Z 60000)).
    assert (X : (x == q * 1000 + 60000)%Q).
    { unfold x. rewrite !Qred_correct. reflexivity. }
    change (add (mul (Fin q) 1000) 60000) with (Fin x).
    unfold Math_min, MAX_API_LIMIT_WAIT, num.
    change (le (Fin x) (Fin (inject_Z 3600000)))
      with (Qle_bool x (inject_Z 3600000)).
    destruct (Qle_bool x (inject_Z 3600000)) eqn:Cap.
    + split; [discriminate |]. split; [| exact Cap].
      unfold lt, num. change (le (Fin x) (Fin (inject_Z 60000)))
        with (Qle_bool x (inject_Z 60000)).
      apply negb_true_iff. destruct (Qle_bool x (inject_Z 60000)) eqn:Low;
        [| reflexivity].
      apply Qle_bool_iff in Low. rewrite X in Low. exfalso. apply Ahead.
      unfold inject_Z in Low. lra.
    + closed_wait.
Qed.

Lemma wait_of_marker
  (Date_parse : string -> option Z) (Date_now : Z) (resetTime : ResetTime) :
  truthy resetTime = true ->
  (exists s,
     resetTime = Str s /\ s <> EmptyString /\ Date_parse s = None /\
     waitSeconds Date_parse Date_now resetTime = NaN) \/
  ((forall s, resetTime = Str s -> Date_parse s <> None) /\
   waitSeconds Date_parse Date_now resetTime <> NaN).
Proof.
  intros T. unfold waitSeconds. rewrite now_seconds.
  destruct resetTime as [| |s|n]; simpl in T; try discriminate T.
  - unfold resetTimestamp, getTime.
    destruct (Date_parse s) as [ms|] eqn:P.
    + right. split; [intros s' E; inversion E; subst; congruence |].
      change (div (num ms) 1000) with (fin (inject_Z ms / inject_Z 1000)).
      discriminate.
    + left. exists s. repeat split; try assumption.
      intros ->. discriminate T.
  - right. split; [intros s E; discriminate E |].
    destruct n as [|negative|q]; [discriminate T | |]; discriminate.
Qed.

Lemma calculateWaitTime_of_number
  (Date_parse : string -> option Z) (Date_now : Z) (resetTime : ResetTime) :
  (forall s, resetTime <> Str s) ->
  bounded (calculateWaitTime Date_parse Date_now resetTime).
Proof.
  intros Number. unfold calculateWaitTime.
  destruct (truthy resetTime) eqn:T; simpl negb; cbv iota;
    [| split; reflexivity].
  destruct (wait_of_marker Date_parse Date_now _ T)
    as [(s & E & _) | (_ & Seconds)]; [exfalso; exact (Number s E) |].
  apply (wait_of_seconds _ Seconds).
Qed.


Lemma calculateWaitTime_of_the_past
  (Date_parse : string -> option Z) (Date_now : Z) (s : string) (ms : Z) :
  Date_parse s = Some ms ->
  ms <= 1000 * (Date_now / 1000) ->
  calculateWaitTime Date_parse Date_now (Str s) = num 900000.
Proof.
  intros P Past. unfold calculateWaitTime.
  destruct (truthy (Str s)); simpl negb; cbv iota; [| reflexivity].
  unfold waitSeconds, resetTimestamp, getTime. rewrite P, now_seconds.
  change (div (num ms) 1000) with (fin (inject_Z ms / inject_Z 1000)).
  assert (L : le (sub (fin (inject_Z ms / inject_Z 1000))
                    (num (Date_now / 1000))) 0 = true).
  { unfold sub, fin, num, le. apply Qle_bool_iff.
    rewrite !Qred_correct.
    assert (Q1 : (inject_Z ms <= inject_Z (1000 * (Date_now / 1000)))%Q)
      by (rewrite <- Zle_Qle; exact Past).
    rewrite inject_Z_mult in Q1.
    set (a := inject_Z ms) in *. set (b := inject_Z (Date_now / 1000)) in *.
    change (inject_Z 1000) with (1000 # 1)%Q in *.
    change (inject_Z 0) with 0%Q.
    unfold Qdiv. change (/ (1000 # 1))%Q with (1 # 1000)%Q. lra. }
  rewrite L. reflexivity.
Qed.

(** In the loop, a candidate whose [created_at] is missing, or is a date
    not after the current epoch second, waits exactly 900000 ms when its
    deletion is refused with code 429: the fifteen minutes the line before
    the sleep announces. *)
Theorem deleteOne_429_waits_the_floor
  {W : Type} `{Platform W} (total : nat) (tweet : TweetV2) (st : State W)
  (error : Error) (w : W) :
  v2_deleteTweet (id tweet) (world st) = (reject error, w) ->
  code error = Some 429 ->
  (created_at tweet = None \/
   exists s ms,
     created_at tweet = Some s /\ Date_parse s = Some ms /\
     ms <= 1000 * (Date_now w / 1000)) ->
  exists st1 t1,
    deleteOne total tweet st = (Fulfilled tt, st1, t1) /\
    sleeps t1 = [num 900000] /\
    In (console_log [Text "Waiting for 15 minutes..."]) t1.
Proof.
  intros E C Old.
  assert (Floor : calculateWaitTime Date_parse (Date_now w) (createdAt tweet)
                  = num 900000).
  { unfold createdAt. destruct Old as [-> | (s & ms & -> & P & Past)].
    - reflexivity.
    - apply (calculateWaitTime_of_the_past _ _ _ _ P Past). }
  eexists _, _. split; [apply (deleteOne_429 _ _ _ _ _ E C) |].
  rewrite Floor. split; [reflexivity |]. simpl. auto 6.
Qed.

Lemma deleteOne_429_waits_the_floor_witness :
  v2_deleteTweet "2" (world Mock.refused429)
  = (reject (Mock.tooManyRequests 1767226200), Mock.deleting []) /\
  code (Mock.tooManyRequests 1767226200) = Some 429 /\
  Mock.parse "2020-01-01T00:00:00.000Z" = Some 1577836800000 /\
  1577836800000 <= 1000 * (Mock.newYear / 1000) /\
  exists st1 t1,
    deleteOne 2 (Mock.tweet "2") Mock.refused429 = (Fulfilled tt, st1, t1) /\
    sleeps t1 = [num 900000] /\
    In (console_log [Text "Waiting for 15 minutes..."]) t1.
Proof.
  assert (E : v2_deleteTweet "2" (world Mock.refused429)
              = (reject (Mock.tooManyRequests 1767226200), Mock.deleting []))
    by reflexivity.
  assert (C : code (Mock.tooManyRequests 1767226200) = Some 429)
    by reflexivity.
  assert (P : Mock.parse "2020-01-01T00:00:00.000Z" = Some 1577836800000)
    by reflexivity.
  assert (Past : 1577836800000 <= 1000 * (Mock.newYear / 1000))
    by (vm_compute; discriminate).
  split; [exact E |]. split; [exact C |]. split; [exact P |].
  split; [exact Past |].
  apply (deleteOne_429_waits_the_floor 2 (Mock.tweet "2") Mock.refused429
           _ _ E C).
  right. exists "2020-01-01T00:00:00.000Z"%string, 1577836800000.
  split; [reflexivity |]. split; [exact P | exact Past].
Defined.

(** Within the second a tweet was created in, the same refusal waits
    about a minute instead: 60400 ms for a tweet created 400 ms into the
    current second. *)
Example calculateWaitTime_same_second :
  calculateWaitTime (fun _ => Some 1767225600400) 1767225600900
    (createdAt {| id := "2"; created_at := Some "just now"%string |})
  = num 60400.
Proof. reflexivity. Qed.

(** ** Further properties: the two retrying operations *)

Lemma waitOf_bounded {W : Type} `{Platform W} (error : Error) (w : W) :
  bounded (waitOf error w).
Proof.
  unfold waitOf. apply calculateWaitTime_of_number.
  intros s E. unfold resetOf in E. destruct (rateLimit error); discriminate E.
Qed.

Lemma getUserId_sleeps_bounded {W : Type} `{Platform W} (fuel : nat) :
  forall (st : State W) o st' t,
    getUserId fuel st = (o, st', t) -> Forall bounded (sleeps t).
Proof.
  induction fuel as [|fuel IH]; intros st o st' t E.
  - inversion E; subst. constructor.
  - simpl in E. destruct (cached st) as [userId|].
    + inversion E; subst. constructor.
    + unfold try_catch, bind, client_v2_me, call in E.
      destruct (v2_me (world st)) as [[r|error] w].
      * inversion E; subst. constructor.
      * destruct (isRateLimitError error).
        -- rewrite waitForReset_run in E.
           destruct (getUserId fuel _) as [[o2 st2] t2] eqn:E2.
           inversion E; subst. simpl. constructor.
           ++ apply waitOf_bounded.
           ++ eapply IH. exact E2.
        -- inversion E; subst. constructor.
Qed.

Lemma getAllTweetsAtOnce_sleeps_bounded {W : Type} `{Platform W} (fuel : nat) :
  forall (st : State W) o st' t,
    getAllTweetsAtOnce fuel st = (o, st', t) -> Forall bounded (sleeps t).
Proof.
  induction fuel as [|fuel IH]; intros st o st' t E.
  - inversion E; subst. constructor.
  - simpl in E. unfold try_catch, bind in E.
    destruct (getUserId fuel st) as [[o1 st1] t1] eqn:G.
    assert (B1 := getUserId_sleeps_bounded _ _ _ _ _ G).
    assert (Again :
      forall error (s : State W) t0,
        Forall bounded (sleeps t0) ->
        (let (p, t2) :=
           (if isRateLimitError error
            then fun st0 =>
                   let (p0, t3) := waitForReset error st0 in
                   let (o0, st3) := p0 in
                   match o0 with
                   | Fulfilled _ =>
                       let (p1, t4) := getAllTweetsAtOnce fuel st3 in
                       let (o1, st4) := p1 in (o1, st4, t3 ++ t4)
                   | Rejected e1 => (Rejected e1, st3, t3)
                   | Pending => (Pending, st3, t3)
                   end
            else throw error) s in
         let (o0, st2) := p in (o0, st2, t0 ++ t2)) = (o, st', t) ->
        Forall bounded (sleeps t)).
    { intros error s t0 B0 R. destruct (isRateLimitError error).
      - rewrite waitForReset_run in R.
        destruct (getAllTweetsAtOnce fuel _) as [[o2 st2] t2] eqn:E2.
        inversion R; subst. rewrite sleeps_app. apply Forall_app.
        split; [exact B0 |]. simpl. constructor.
        + apply waitOf_bounded.
        + eapply IH. exact E2.
      - inversion R; subst. rewrite sleeps_app, app_nil_r. exact B0. }
    destruct o1 as [userId|error|].
    + unfold client_v2_userTimeline, call in E.
      destruct (v2_userTimeline userId _ (world st1)) as [[r|error] w].
      * inversion E; subst. rewrite sleeps_app, app_nil_r. exact B1.
      * simpl in E. eapply (Again error _ _ _ E).
    + eapply (Again error _ _ B1 E).
    + inversion E; subst. exact B1.
    Unshelve. rewrite sleeps_app, app_nil_r. exact B1.
Qed.



Lemma getAllTweetsAtOnce_rejects {W : Type} `{Platform W} (fuel : nat) :
  forall (st : State W) error st' t,
    getAllTweetsAtOnce fuel st = (Rejected error, st', t) ->
    isRateLimitError error = false.
Proof.
  induction fuel as [|fuel IH]; intros st error st' t E.
  - inversion E.
  - simpl in E. unfold try_catch, bind in E.
    destruct (getUserId fuel st) as [[o1 st1] t1] eqn:G.
    assert (Again :
      forall error1 (s : State W) t0,
        (let (p, t2) :=
           (if isRateLimitError error1
            then fun st0 =>
                   let (p0, t3) := waitForReset error1 st0 in
                   let (o0, st3) := p0 in
                   match o0 with
                   | Fulfilled _ =>
                       let (p1, t4) := getAllTweetsAtOnce fuel st3 in
                       let (o1, st4) := p1 in (o1, st4, t3 ++ t4)
                   | Rejected e1 => (Rejected e1, st3, t3)
                   | Pending => (Pending, st3, t3)
                   end
            else throw error1) s in
         let (o0, st2) := p in (o0, st2, t0 ++ t2))
        = (Rejected error, st', t) ->
        isRateLimitError error = false).
    { intros error1 s t0 R. destruct (isRateLimitError error1) eqn:L.
      - rewrite waitForReset_run in R.
        destruct (getAllTweetsAtOnce fuel _) as [[o2 st2] t2] eqn:E2.
        inversion R; subst. eapply IH. exact E2.
      - inversion R; subst. exact L. }
    destruct o1 as [userId|error1|].
    + unfold client_v2_userTimeline, call in E.
      destruct (v2_userTimeline userId _ (world st1)) as [[r|error1] w].
      * inversion E.
      * simpl in E. eapply (Again error1 _ _ E).
    + eapply (Again error1 _ _ E).
    + inversion E.
Qed.

(** Neither [getUserId] nor [getAllTweetsAtOnce] ever rejects with a
    rate-limit error: what they reject with is an error their test of
    line 86 does not take for one. *)
Theorem retrievals_reject_with_other_errors {W : Type} `{Platform W} :
  (forall fuel (st : State W) error st' t,
     getUserId fuel st = (Rejected error, st', t) ->
     isRateLimitError error = false) /\
  (forall fuel (st : State W) error st' t,
     getAllTweetsAtOnce fuel st = (Rejected error, st', t) ->
     isRateLimitError error = false).
Proof.
  split; intros fuel st error st' t E.
  - apply (getUserId_rejects _ _ _ _ _ E).
  - apply (getAllTweetsAtOnce_rejects _ _ _ _ _ E).
Qed.

Lemma retrievals_reject_with_other_errors_witness :
  getAllTweetsAtOnce 5
    (Mock.start
       (Mock.retrieval [Mock.ok "42"%string; Mock.ok "42"%string]
          [reject (Mock.tooManyRequests 1767226200); reject Mock.forbidden]))
  = (Rejected Mock.forbidden,
     snd (fst (getAllTweetsAtOnce 5
                 (Mock.start
                    (Mock.retrieval [Mock.ok "42"%string; Mock.ok "42"%string]
                       [reject (Mock.tooManyRequests 1767226200);
                        reject Mock.forbidden])))),
     snd (getAllTweetsAtOnce 5
            (Mock.start
               (Mock.retrieval [Mock.ok "42"%string; Mock.ok "42"%string]
                  [reject (Mock.tooManyRequests 1767226200);
                   reject Mock.forbidden])))) /\
  isRateLimitError Mock.forbidden = false.
Proof.
  assert (E : getAllTweetsAtOnce 5
    (Mock.start
       (Mock.retrieval [Mock.ok "42"%string; Mock.ok "42"%string]
          [reject (Mock.tooManyRequests 1767226200); reject Mock.forbidden]))
  = (Rejected Mock.forbidden,
     snd (fst (getAllTweetsAtOnce 5
                 (Mock.start
                    (Mock.retrieval [Mock.ok "42"%string; Mock.ok "42"%string]
                       [reject (Mock.tooManyRequests 1767226200);
                        reject Mock.forbidden])))),
     snd (getAllTweetsAtOnce 5
            (Mock.start
               (Mock.retrieval [Mock.ok "42"%string; Mock.ok "42"%string]
                  [reject (Mock.tooManyRequests 1767226200);
                   reject Mock.forbidden]))))) by reflexivity.
  split; [exact E |].
  apply (proj2 retrievals_reject_with_other_errors _ _ _ _ _ E).
Defined.

(** While the platform refuses every "who am I" for its rate limit,
    [getUserId] never settles: at any depth it has called once and slept
    once per level, and is still pending. *)
Theorem getUserId_never_gives_up
  {W : Type} `{Platform W} (fuel : nat) (st : State W) :
  (forall w, limited (fst (v2_me w)) = true) ->
  cached st = None ->
  exists st' t,
    getUserId fuel st = (Pending, st', t) /\
    me_calls t = fuel /\
    List.length (sleeps t) = fuel.
Proof.
  intros Busy. revert st. induction fuel as [|fuel IH]; intros st C.
  - exists st, []. repeat split.
  - specialize (Busy (world st)).
    destruct (v2_me (world st)) as [[r|error] w] eqn:E; [discriminate Busy |].
    simpl in Busy. rewrite (getUserId_limited _ _ _ _ C E Busy).
    destruct (IH (set_world (timer (waitOf error w) w) st) C)
      as (st' & t & Run & Calls & Sleeps).
    rewrite Run. eexists _, _. split; [reflexivity |]. split.
    + simpl. rewrite Calls. reflexivity.
    + simpl. rewrite Sleeps. reflexivity.
Qed.

Lemma getUserId_never_gives_up_witness :
  (forall clock : Z, limited (fst (v2_me clock)) = true) /\
  cached Steady.start = None /\
  exists st' t,
    getUserId 7 Steady.start = (Pending, st', t) /\
    me_calls t = 7%nat /\
    List.length (sleeps t) = 7%nat.
Proof.
  assert (B : forall clock : Z, limited (fst (v2_me clock)) = true)
    by (intros clock; reflexivity).
  assert (C : cached Steady.start = None) by reflexivity.
  split; [exact B |]. split; [exact C |].
  exact (getUserId_never_gives_up 7 Steady.start B C).
Defined.

(** ** Further properties: the preflight *)

Lemma checkApiStatus_no_data
  {W : Type} `{Platform W} (USERNAME : string) (st : State W) r w :
  v2_userByUsername USERNAME (world st) = (resolve r, w) ->
  data r = None ->
  checkApiStatus USERNAME st =
  (Fulfilled true, set_world w st,
   [console_log [Text "\nChecking API status..."];
    userByUsername USERNAME;
    console_log [Text "\n[User Information API Rate Limit]"];
    console_log [Limits (formatRateLimit (response_rateLimit r))]]).
Proof.
  intros E D.
  unfold checkApiStatus, try_catch, bind, client_v2_userByUsername, call.
  simpl. rewrite E. simpl. rewrite D. reflexivity.
Qed.

Lemma checkApiStatus_passes
  {W : Type} `{Platform W} (USERNAME : string) (st : State W)
  r w userId r' w' :
  v2_userByUsername USERNAME (world st) = (resolve r, w) ->
  data r = Some userId ->
  v2_userTimeline userId preflightOptions w = (resolve r', w') ->
  checkApiStatus USERNAME st =
  (Fulfilled true, set_world w' st,
   [console_log [Text "\nChecking API status..."];
    userByUsername USERNAME;
    console_log [Text "\n[User Information API Rate Limit]"];
    console_log [Limits (formatRateLimit (response_rateLimit r))];
    userTimeline userId preflightOptions;
    console_log [Text "\n[Timeline API Rate Limit]"];
    console_log [Limits (formatRateLimit (response_rateLimit r'))]]).
Proof.
  intros E D E'.
  unfold checkApiStatus, try_catch, bind, client_v2_userByUsername,
    client_v2_userTimeline, call.
  simpl. rewrite E. simpl. rewrite D. fold preflightOptions.
  change (world (set_world w st)) with w. rewrite E'. reflexivity.
Qed.

Lemma checkApiStatus_fulfils
  {W : Type} `{Platform W} (USERNAME : string) (st : State W) :
  exists b st' t, checkApiStatus USERNAME st = (Fulfilled b, st', t).
Proof.
  destruct (v2_userByUsername USERNAME (world st)) as [[r|error] w] eqn:E.
  - destruct (data r) as [userId|] eqn:D.
    + destruct (v2_userTimeline userId preflightOptions w)
        as [[r'|error] w'] eqn:E'.
      * eexists _, _, _. apply (checkApiStatus_passes _ _ _ _ _ _ _ E D E').
      * eexists _, _, _.
        apply (checkApiStatus_timeline_rejected _ _ _ _ _ _ _ E D E').
    + eexists _, _, _. apply (checkApiStatus_no_data _ _ _ _ E D).
  - eexists _, _, _. apply (checkApiStatus_user_rejected _ _ _ _ E).
Qed.


(** ** Further properties: the run *)

Lemma deleteTweets_unexpected
  {W : Type} `{Platform W} (USERNAME : string) fuel
  (st st1 st2 : State W) t1 t2 error :
  checkApiStatus USERNAME st = (Fulfilled true, st1, t1) ->
  getAllTweetsAtOnce fuel st1 = (Rejected error, st2, t2) ->
  deleteTweets USERNAME fuel st =
  (Fulfilled tt, st2,
   (console_log [Text "Checking API status..."] :: t1
      ++ console_log [Text "\nRetrieving tweets..."] :: t2)
     ++ [unexpected error]).
Proof.
  intros E1 E2. unfold deleteTweets, try_catch, bind. simpl.
  rewrite E1. simpl. rewrite E2. reflexivity.
Qed.

Lemma deleteTweets_pending
  {W : Type} `{Platform W} (USERNAME : string) fuel
  (st st1 st2 : State W) t1 t2 :
  checkApiStatus USERNAME st = (Fulfilled true, st1, t1) ->
  getAllTweetsAtOnce fuel st1 = (Pending, st2, t2) ->
  deleteTweets USERNAME fuel st =
  (Pending, st2,
   console_log [Text "Checking API status..."] :: t1
     ++ console_log [Text "\nRetrieving tweets..."] :: t2).
Proof.
  intros E1 E2. unfold deleteTweets, try_catch, bind. simpl.
  rewrite E1. simpl. rewrite E2. reflexivity.
Qed.

Lemma deleteTweets_outcome
  {W : Type} `{Platform W} (USERNAME : string) (fuel : nat) (st : State W) :
  exists st' t,
    deleteTweets USERNAME fuel st = (Fulfilled tt, st', t) \/
    deleteTweets USERNAME fuel st = (Pending, st', t).
Proof.
  destruct (checkApiStatus_fulfils USERNAME st) as (b & st1 & t1 & E1).
  destruct b.
  - destruct (getAllTweetsAtOnce fuel st1) as [[[tweets|error|] st2] t2] eqn:E2.
    + destruct (deleteAllButFirst_run tweets st2) as (st3 & t3 & E3 & _).
      eexists _, _. left.
      apply (deleteTweets_proceeds _ _ _ _ _ _ _ _ _ _ E1 E2 E3).
    + eexists _, _. left. apply (deleteTweets_unexpected _ _ _ _ _ _ _ _ E1 E2).
    + eexists _, _. right. apply (deleteTweets_pending _ _ _ _ _ _ _ E1 E2).
  - eexists _, _. left. apply (deleteTweets_aborts _ _ _ _ _ E1).
Qed.

(** [deleteTweets] never rejects: whatever the platform does, its promise
    is fulfilled, or is pending with the retrieval that did not settle
    within the depth given. *)
Theorem deleteTweets_never_rejects
  {W : Type} `{Platform W} (USERNAME : string) (fuel : nat) (st : State W) :
  exists st' t,
    deleteTweets USERNAME fuel st = (Fulfilled tt, st', t) \/
    deleteTweets USERNAME fuel st = (Pending, st', t) /\
    exists st1 t1 t2,
      checkApiStatus USERNAME st = (Fulfilled true, st1, t1) /\
      getAllTweetsAtOnce fuel st1 = (Pending, st', t2).
Proof.
  destruct (checkApiStatus_fulfils USERNAME st) as (b & st1 & t1 & E1).
  destruct b.
  - destruct (getAllTweetsAtOnce fuel st1) as [[[tweets|error|] st2] t2] eqn:E2.
    + destruct (deleteAllButFirst_run tweets st2) as (st3 & t3 & E3 & _).
      eexists _, _. left.
      apply (deleteTweets_proceeds _ _ _ _ _ _ _ _ _ _ E1 E2 E3).
    + eexists _, _. left. apply (deleteTweets_unexpected _ _ _ _ _ _ _ _ E1 E2).
    + eexists _, _. right.
      split; [apply (deleteTweets_pending _ _ _ _ _ _ _ E1 E2) |].
      exists st1, t1, t2. split; [exact E1 | exact E2].
  - eexists _, _. left. apply (deleteTweets_aborts _ _ _ _ _ E1).
Qed.

(** When the preflight passes and the retrieval is rejected, with an
    error that is then no rate-limit error, [deleteTweets] prints it as
    unexpected and is fulfilled, having deleted nothing. *)
Theorem retrieval_error_ends_the_run
  {W : Type} `{Platform W} (USERNAME : string) (fuel : nat)
  (st st1 st2 : State W) (t1 t2 : list event) (error : Error) :
  checkApiStatus USERNAME st = (Fulfilled true, st1, t1) ->
  getAllTweetsAtOnce fuel st1 = (Rejected error, st2, t2) ->
  exists t,
    deleteTweets USERNAME fuel st = (Fulfilled tt, st2, t ++ [unexpected error])
    /\ deleteTweet_calls (t ++ [unexpected error]) = []
    /\ isRateLimitError error = false.
Proof.
  intros E1 E2. eexists. split.
  { apply (deleteTweets_unexpected _ _ _ _ _ _ _ _ E1 E2). }
  destruct (checkApiStatus_quiet _ _ _ _ _ E1) as (_ & _ & _ & Q1).
  destruct (getAllTweetsAtOnce_quiet _ _ _ _ _ E2) as (_ & _ & _ & Q2).
  split; [| apply (getAllTweetsAtOnce_rejects _ _ _ _ _ E2)].
  rewrite deleteTweet_calls_app. simpl. rewrite deleteTweet_calls_app. simpl.
  rewrite Q1, Q2. reflexivity.
Qed.

Lemma retrieval_error_ends_the_run_witness :
  exists st1 t1 st2 t2 t,
    checkApiStatus "u"
      (Mock.start
         (Mock.preflight [Mock.ok None] []))
    = (Fulfilled true, st1, t1) /\
    getAllTweetsAtOnce 5 st1 = (Rejected Mock.networkError, st2, t2) /\
    deleteTweets "u" 5 (Mock.start (Mock.preflight [Mock.ok None] []))
    = (Fulfilled tt, st2, t ++ [unexpected Mock.networkError]) /\
    deleteTweet_calls (t ++ [unexpected Mock.networkError]) = [].
Proof.
  set (st := Mock.start (Mock.preflight [Mock.ok None] [])).
  set (run1 := checkApiStatus "u" st).
  set (run2 := getAllTweetsAtOnce 5 (snd (fst run1))).
  assert (E1 : run1 = (Fulfilled true, snd (fst run1), snd run1))
    by reflexivity.
  assert (E2 : run2 = (Rejected Mock.networkError, snd (fst run2), snd run2))
    by reflexivity.
  destruct (retrieval_error_ends_the_run "u" 5 _ _ _ _ _ _ E1 E2)
    as (t & Run & Calls & _).
  exists (snd (fst run1)), (snd run1), (snd (fst run2)), (snd run2), t.
  split; [exact E1 |]. split; [exact E2 |]. split; [exact Run | exact Calls].
Defined.

Lemma deleteAllButFirst_keeps_USER_ID
  {W : Type} `{Platform W} (tweets : list TweetV2) (st : State W) :
  USER_ID (snd (fst (deleteAllButFirst tweets st))) = USER_ID st.
Proof.
  unfold deleteAllButFirst.
  destruct (List.length tweets <=? 1)%nat; [reflexivity |].
  destruct (forOf_all (List.length (slice1 tweets)) (slice1 tweets)
              (set_counts 0 0 st)) as (st1 & t1 & E & _ & U & _).
  unfold bind, emit, let_counts, counters. rewrite E. simpl.
  destruct (0 <? failedCount st1)%nat; simpl; exact U.
Qed.

(** No run of [deleteTweets] writes [USER_ID]: it is at the end what it
    was at the start, so the test of line 91 never succeeds in a run that
    starts, as the script does, with [USER_ID] null. *)
Theorem deleteTweets_keeps_USER_ID
  {W : Type} `{Platform W} (USERNAME : string) (fuel : nat) (st : State W) :
  USER_ID (snd (fst (deleteTweets USERNAME fuel st))) = USER_ID st.
Proof.
  destruct (checkApiStatus_fulfils USERNAME st) as (b & st1 & t1 & E1).
  destruct (checkApiStatus_quiet _ _ _ _ _ E1) as (U1 & _).
  destruct b.
  - destruct (getAllTweetsAtOnce fuel st1) as [[[tweets|error|] st2] t2] eqn:E2;
      destruct (getAllTweetsAtOnce_quiet _ _ _ _ _ E2) as (U2 & _).
    + assert (U3 := deleteAllButFirst_keeps_USER_ID tweets st2).
      destruct (deleteAllButFirst_run tweets st2) as (st3 & t3 & E3 & _).
      rewrite E3 in U3. simpl in U3.
      rewrite (deleteTweets_proceeds _ _ _ _ _ _ _ _ _ _ E1 E2 E3). simpl.
      congruence.
    + rewrite (deleteTweets_unexpected _ _ _ _ _ _ _ _ E1 E2). simpl.
      congruence.
    + rewrite (deleteTweets_pending _ _ _ _ _ _ _ E1 E2). simpl. congruence.
  - rewrite (deleteTweets_aborts _ _ _ _ _ E1). simpl. exact U1.
Qed.

(** ** Further properties: the loop *)

Lemma deleteOne_acts_once
  {W : Type} `{Platform W} (total : nat) (tweet : TweetV2) (st : State W) :
  exists st1 t1,
    deleteOne total tweet st = (Fulfilled tt, st1, t1) /\
    List.length (sleeps t1) = 1%nat /\
    client_calls t1 = [deleteTweet (id tweet)].
Proof.
  destruct (v2_deleteTweet (id tweet) (world st)) as [[r|error] w] eqn:E.
  - eexists _, _. split; [apply (deleteOne_resolved _ _ _ _ _ E) |].
    split; reflexivity.
  - destruct (code429 error) eqn:C.
    + apply code429_iff in C.
      eexists _, _. split; [apply (deleteOne_429 _ _ _ _ _ E C) |].
      split; reflexivity.
    + assert (C' : code error <> Some 429).
      { intros X. apply code429_iff in X. congruence. }
      eexists _, _. split; [apply (deleteOne_failed _ _ _ _ _ E C') |].
      split; reflexivity.
Qed.

Lemma client_calls_app (t1 t2 : list event) :
  client_calls (t1 ++ t2) = client_calls t1 ++ client_calls t2.
Proof.
  induction t1 as [|e t1 IH]; [reflexivity |].
  destruct e; simpl; rewrite IH; reflexivity.
Qed.

(** The loop sleeps once per candidate, whatever becomes of its deletion,
    and asks the client for nothing but the deletions, one per candidate,
    in order. *)
Theorem forOf_one_sleep_per_candidate
  {W : Type} `{Platform W} (total : nat) (tweets : list TweetV2)
  (st : State W) :
  exists st' t,
    forOf total tweets st = (Fulfilled tt, st', t) /\
    List.length (sleeps t) = List.length tweets /\
    client_calls t = map (fun tweet => deleteTweet (id tweet)) tweets.
Proof.
  revert st. induction tweets as [|tweet rest IH]; intros st.
  - exists st, []. repeat split.
  - destruct (deleteOne_acts_once total tweet st) as (st1 & t1 & E1 & S1 & C1).
    destruct (IH st1) as (st2 & t2 & E2 & S2 & C2).
    exists st2, (t1 ++ t2). split; [| split].
    + rewrite (forOf_cons _ _ _ _ _ _ E1), E2. reflexivity.
    + rewrite sleeps_app, length_app, S1, S2. reflexivity.
    + rewrite client_calls_app, C1, C2. reflexivity.
Qed.

(** On a platform that accepts every deletion, the run over more than one
    tweet deletes all but the first: [deletedCount] ends at their number,
    [failedCount] at zero, every sleep is of 5000 ms, and the summary is
    the last thing printed, with no advice to try again. *)
Theorem deleteAllButFirst_all_deleted
  {W : Type} `{Platform W} (tweets : list TweetV2) (st : State W) :
  (forall tweetId w, exists r w',
      v2_deleteTweet tweetId w = (resolve r, w')) ->
  (1 < List.length tweets)%nat ->
  exists st' before,
    deleteAllButFirst tweets st =
    (Fulfilled tt, st',
     before ++ [successful (List.length tweets - 1); failed 0]) /\
    deletedCount st' = (List.length tweets - 1)%nat /\
    failedCount st' = 0%nat /\
    sleeps before = repeat (num 5000) (List.length tweets - 1).
Proof.
  intros Accepts Many.
  assert (Loop :
    forall total rest (s : State W),
    exists s' t,
      forOf total rest s = (Fulfilled tt, s', t) /\
      deletedCount s' = (deletedCount s + List.length rest)%nat /\
      failedCount s' = failedCount s /\
      sleeps t = repeat (num 5000) (List.length rest)).
  { intros total rest. induction rest as [|tweet rest IH]; intros s.
    - exists s, []. repeat split. simpl. lia.
    - destruct (Accepts (id tweet) (world s)) as (r & w & E).
      assert (E1 := deleteOne_resolved total tweet s r w E).
      destruct (IH (turned (S (deletedCount s)) (failedCount s)
                      (timer (num 5000) w) s)) as (s' & t & E2 & D & F & S2).
      eexists s', _. split; [| split; [| split]].
      + rewrite (forOf_cons _ _ _ _ _ _ E1), E2. reflexivity.
      + rewrite D. simpl. lia.
      + rewrite F. reflexivity.
      + unfold prepend, deletionLines. simpl. rewrite S2. reflexivity. }
  unfold deleteAllButFirst.
  destruct (List.length tweets <=? 1)%nat eqn:L;
    [apply Nat.leb_le in L; lia |].
  destruct (Loop (List.length (slice1 tweets)) (slice1 tweets)
              (set_counts 0 0 st)) as (s' & t & E & D & F & S1).
  assert (Len : List.length (slice1 tweets) = (List.length tweets - 1)%nat).
  { unfold slice1. rewrite length_skipn. reflexivity. }
  simpl in D, F. rewrite Len in D, S1.
  unfold bind, emit, let_counts, counters. rewrite E. simpl.
  rewrite F, D. simpl.
  exists s'.
  exists (console_log
            [Text "Found "; Count (List.length tweets);
             Text " tweets. Will delete all except the most recent one."]
          :: console_log [Text "Starting deletion process..."]
          :: t ++ [console_log [Text "\nDeletion process completed"]]).
  split; [| split; [exact D | split; [exact F |]]].
  - unfold successful, failed. simpl. rewrite <- app_assoc. reflexivity.
  - simpl. rewrite sleeps_app. simpl. rewrite app_nil_r. exact S1.
Qed.

Lemma deleteAllButFirst_all_deleted_witness :
  (forall (tweetId : string) (clock : Z), exists r clock',
      v2_deleteTweet tweetId clock = (resolve r, clock')) /\
  (1 < List.length [Mock.tweet "3"; Mock.tweet "2"; Mock.tweet "1"])%nat /\
  exists st' before,
    deleteAllButFirst [Mock.tweet "3"; Mock.tweet "2"; Mock.tweet "1"]
      Steady.start
    = (Fulfilled tt, st', before ++ [successful 2; failed 0]) /\
    deletedCount st' = 2%nat /\
    failedCount st' = 0%nat /\
    sleeps before = [num 5000; num 5000].
Proof.
  assert (A : forall (tweetId : string) (clock : Z), exists r clock',
             v2_deleteTweet tweetId clock = (resolve r, clock')).
  { intros tweetId clock. eexists _, _. reflexivity. }
  assert (M : (1 < List.length
                     [Mock.tweet "3"; Mock.tweet "2"; Mock.tweet "1"])%nat)
    by (simpl; lia).
  split; [exact A |]. split; [exact M |].
  exact (deleteAllButFirst_all_deleted
           [Mock.tweet "3"; Mock.tweet "2"; Mock.tweet "1"] Steady.start A M).
Defined.

Lemma getUserId_asks {W : Type} `{Platform W} (fuel : nat) :
  forall (st : State W) userId st' t,
    cached st = None ->
    getUserId fuel st = (Fulfilled userId, st', t) ->
    (1 <= me_calls t)%nat.
Proof.
  destruct fuel as [|fuel]; intros st userId st' t C E; [inversion E |].
  destruct (v2_me (world st)) as [[r|error] w] eqn:M.
  - rewrite (getUserId_settled fuel st (resolve r) w C M eq_refl) in E.
    inversion E; subst. simpl. lia.
  - destruct (isRateLimitError error) eqn:L.
    + rewrite (getUserId_limited _ _ _ _ C M L) in E.
      destruct (getUserId fuel _) as [[o2 st2] t2].
      inversion E; subst. simpl. lia.
    + rewrite (getUserId_settled fuel st (reject error) w C M L) in E.
      inversion E.
Qed.

Lemma cached_kept {W : Type} (st st' : State W) :
  USER_ID st' = USER_ID st -> cached st' = cached st.
Proof. intros U. unfold cached. rewrite U. reflexivity. Qed.

Lemma getAllTweetsAtOnce_asks {W : Type} `{Platform W} (fuel : nat) :
  forall (st : State W) o st' t,
    cached st = None ->
    getAllTweetsAtOnce fuel st = (o, st', t) ->
    (userTimeline_calls t <= me_calls t)%nat.
Proof.
  induction fuel as [|fuel IH]; intros st o st' t C E.
  - inversion E; subst. simpl. lia.
  - destruct (getUserId fuel st) as [[o1 st1] t1] eqn:G.
    assert (S1 := getUserId_silent _ _ _ _ _ G).
    assert (C1 : cached st1 = None).
    { rewrite (cached_kept st st1); [exact C |].
      apply (getUserId_never_caches _ _ _ _ _ G). }
    destruct o1 as [userId|error|].
    + assert (A := getUserId_asks _ _ _ _ _ C G).
      destruct (v2_userTimeline userId fetchOptions (world st1))
        as [[r|error] w] eqn:T.
      * rewrite (getAllTweetsAtOnce_settled _ _ _ _ _ (resolve r) _ G T eq_refl)
          in E.
        inversion E; subst.
        rewrite userTimeline_calls_app, me_calls_app, S1. simpl. lia.
      * destruct (isRateLimitError error) eqn:L.
        -- rewrite (getAllTweetsAtOnce_limited _ _ _ _ _ _ _ G T L) in E.
           destruct (getAllTweetsAtOnce fuel _) as [[o2 st2] t2] eqn:E2.
           assert (R := IH (set_world (timer (waitOf error w) w) st1)
                          _ _ _ C1 E2).
           inversion E; subst.
           rewrite !userTimeline_calls_app, !me_calls_app, S1.
           unfold waitEvents. simpl. lia.
        -- rewrite (getAllTweetsAtOnce_settled _ _ _ _ _ (reject error) _
                      G T L) in E.
           inversion E; subst.
           rewrite userTimeline_calls_app, me_calls_app, S1. simpl. lia.
    + rewrite (getAllTweetsAtOnce_propagates _ _ _ _ _ G) in E.
      inversion E; subst. lia.
    + simpl in E. unfold try_catch, bind in E. rewrite G in E.
      inversion E; subst. lia.
Qed.

(** With [USER_ID] null, as it always is, every attempt of the retrieval
    asks "who am I" again before it asks for the timeline: in any run of
    [getAllTweetsAtOnce], however it ends, the timeline was asked for at
    most as many times as "who am I". *)
Theorem every_attempt_asks_who
  {W : Type} `{Platform W} (fuel : nat) (st : State W) o st' t :
  cached st = None ->
  getAllTweetsAtOnce fuel st = (o, st', t) ->
  (userTimeline_calls t <= me_calls t)%nat.
Proof. apply getAllTweetsAtOnce_asks. Qed.

Lemma every_attempt_asks_who_witness :
  cached (Mock.start
            (Mock.retrieval [Mock.ok "42"%string; Mock.ok "42"%string]
               [reject (Mock.tooManyRequests 1767226200); Mock.ok []]))
  = None /\
  userTimeline_calls
    (snd (getAllTweetsAtOnce 5
            (Mock.start
               (Mock.retrieval [Mock.ok "42"%string; Mock.ok "42"%string]
                  [reject (Mock.tooManyRequests 1767226200); Mock.ok []]))))
  = 2%nat /\
  (2 <= me_calls
          (snd (getAllTweetsAtOnce 5
                  (Mock.start
                     (Mock.retrieval
                        [Mock.ok "42"%string; Mock.ok "42"%string]
                        [reject (Mock.tooManyRequests 1767226200);
                         Mock.ok []])))))%nat.
Proof.
  set (st := Mock.start
               (Mock.retrieval [Mock.ok "42"%string; Mock.ok "42"%string]
                  [reject (Mock.tooManyRequests 1767226200); Mock.ok []])).
  assert (C : cached st = None) by reflexivity.
  assert (N : userTimeline_calls (snd (getAllTweetsAtOnce 5 st)) = 2%nat)
    by reflexivity.
  split; [exact C |]. split; [exact N |].
  rewrite <- N.
  apply (every_attempt_asks_who 5 st
           (fst (fst (getAllTweetsAtOnce 5 st)))
           (snd (fst (getAllTweetsAtOnce 5 st)))
           (snd (getAllTweetsAtOnce 5 st)) C).
  destruct (getAllTweetsAtOnce 5 st) as [[o st'] t]. reflexivity.
Defined.

(** ** Further properties: the start of the script *)


(** ** Further properties: the rate-limit text *)

Lemma orUnknown_none (x : jsnum) :
  orUnknown x = None <-> x = NaN \/ exists q, x = Fin q /\ (q == 0)%Q.
Proof.
  unfold orUnknown. destruct x as [|negative|q]; simpl.
  - split; [left; reflexivity | reflexivity].
  - split; [discriminate |]. intros [E | (q & E & _)]; discriminate E.
  - destruct (Qeq_bool q 0) eqn:Z0; simpl.
    + split; [| reflexivity]. intros _. right. exists q.
      split; [reflexivity | apply Qeq_bool_iff; exact Z0].
    + split; [discriminate |]. intros [E | (q' & E & Z1)]; [discriminate E |].
      inversion E; subst. apply Qeq_bool_iff in Z1. congruence.
Qed.

(** [formatRateLimit] says there is no information only when the metadata
    is missing.  Of metadata it shows each of [limit] and [remaining] as it
    is, except that it shows "Unknown" for 0 and for NaN: a quota that is
    used up, [remaining] = 0, reads as unknown.  It shows a reset date,
    [reset] times 1000, unless [reset] is 0 or NaN. *)
Theorem formatRateLimit_unknowns (r : RateLimit) :
  exists total left resetDate,
    formatRateLimit (Some r) = RateLimitInformation total left resetDate /\
    (total = None <->
     limit r = NaN \/ exists q, limit r = Fin q /\ (q == 0)%Q) /\
    (left = None <->
     remaining r = NaN \/ exists q, remaining r = Fin q /\ (q == 0)%Q) /\
    (resetDate = None <->
     reset r = NaN \/ exists q, reset r = Fin q /\ (q == 0)%Q) /\
    (forall x, total = Some x -> x = limit r) /\
    (forall x, left = Some x -> x = remaining r) /\
    (forall x, resetDate = Some x -> x = mul (reset r) 1000).
Proof.
  eexists _, _, _. split; [reflexivity |].
  split; [apply orUnknown_none |]. split; [apply orUnknown_none |].
  split.
  - rewrite <- orUnknown_none. unfold orUnknown.
    destruct (Number.truthy (reset r)); split; intros E;
      try reflexivity; discriminate E.
  - unfold orUnknown. repeat split; intros x E;
      match type of E with
      | (if ?b then _ else _) = _ => destruct b
      end;
      inversion E; reflexivity.
Qed.
